(** * mysqlreplace: bulk find-and-replace over the text columns of a MySQL database

    A shallow embedding of the two source variants of the tool,
    [src/main.go] (module [MainGo]) and [src/unnamed/part_000] (module
    [Part000], the variant with the [-v] flag), and the properties of the
    per-row scan-and-conditional-update loop.

    Layout:
    - [GoStrings]: the functions of Go's [strings], [fmt] and [unicode/utf8]
      packages that the program calls, on byte strings;
    - [Sql]: what [database/sql] hands to the program (values, rows, errors)
      and the trace of statements and log lines the program produces;
    - [Engine]: [getTables], [getTextColumns], [processTable], [updateRow]
      and [main], written once over the two places where the variants
      differ (the rendering of a value and the verbose flag);
    - [MainGo], [Part000]: the two variants;
    - the properties. *)

From Stdlib Require Import List Bool Arith ZArith Lia Ascii String DecimalString.
From Stdlib Require Import Permutation.
Import ListNotations.
Open Scope list_scope.
Open Scope string_scope.

(* ------------------------------------------------------------------ *)
(** * Go library functions used by the program *)

Module GoStrings.

(** Go strings are byte sequences; [string] is a list of 8-bit [ascii]. *)

(** [s[n:]] for [n <= len(s)]. *)
Fixpoint drop (n : nat) (s : string) : string :=
  match n, s with
  | O, _ => s
  | S _, EmptyString => EmptyString
  | S k, String _ rest => drop k rest
  end.

(** [strings.Contains(s, substr)]: [substr] occurs at some offset of [s]. *)
Fixpoint Contains (s substr : string) : bool :=
  String.prefix substr s
  || match s with
     | EmptyString => false
     | String _ rest => Contains rest substr
     end.

(** [strings.ToLower] on the ASCII letters: ['A'..'Z'] are moved to
    ['a'..'z'], every other byte is kept.  (On bytes above 127 Go maps whole
    runes with [unicode.ToLower]; no rune outside ASCII lowers to a letter of
    "char", "text" or "varchar", the only strings the program looks for in a
    lowered string.) *)
Definition lowerByte (c : ascii) : ascii :=
  let n := nat_of_ascii c in
  if ((65 <=? n) && (n <=? 90))%nat then ascii_of_nat (n + 32) else c.

Fixpoint ToLower (s : string) : string :=
  match s with
  | EmptyString => EmptyString
  | String c rest => String (lowerByte c) (ToLower rest)
  end.

(** [strings.Join(elems, sep)]. *)
Definition Join (elems : list string) (sep : string) : string :=
  String.concat sep elems.

(** Width in bytes of the first rune of a non-empty string, as
    [utf8.DecodeRuneInString] reports it: 1 for ASCII and for every invalid
    or truncated encoding, otherwise the length of the encoding. *)
Definition continuation (lo hi : nat) (s : string) : bool :=
  match s with
  | EmptyString => false
  | String c _ => let n := nat_of_ascii c in ((lo <=? n) && (n <=? hi))%nat
  end.

Definition runeWidth (s : string) : nat :=
  match s with
  | EmptyString => 0
  | String c0 t1 =>
    let b0 := nat_of_ascii c0 in
    let size_lo_hi :=
      if (b0 <? 194)%nat then (1, 0, 0)                 (* ASCII, or invalid *)
      else if (b0 <? 224)%nat then (2, 128, 191)
      else if (b0 =? 224)%nat then (3, 160, 191)
      else if (b0 =? 237)%nat then (3, 128, 159)
      else if (b0 <? 240)%nat then (3, 128, 191)
      else if (b0 =? 240)%nat then (4, 144, 191)
      else if (b0 <? 244)%nat then (4, 128, 191)
      else if (b0 =? 244)%nat then (4, 128, 143)
      else (1, 0, 0) in
    let '(size, lo, hi) := size_lo_hi in
    if (size =? 1)%nat then 1
    else if negb (continuation lo hi t1) then 1
    else if (size =? 2)%nat then 2
    else if negb (continuation 128 191 (drop 1 t1)) then 1
    else if (size =? 3)%nat then 3
    else if negb (continuation 128 191 (drop 2 t1)) then 1
    else 4
  end.

(** [strings.ReplaceAll] with a non-empty [old]: the leftmost occurrence is
    replaced, and the search goes on after it.  [skip] counts the bytes of
    the occurrence just replaced that are still to be passed over. *)
Fixpoint replaceFrom (skip : nat) (s old new : string) : string :=
  match s with
  | EmptyString => EmptyString
  | String c rest =>
    match skip with
    | S k => replaceFrom k rest old new
    | O =>
      if String.prefix old s
      then new ++ replaceFrom (String.length old - 1) rest old new
      else String c (replaceFrom 0 rest old new)
    end
  end.

(** [strings.ReplaceAll] with an empty [old]: [new] goes in front of every
    rune.  [skip] counts the bytes of the current rune still to be copied. *)
Fixpoint insertAtRunes (skip : nat) (s new : string) : string :=
  match s with
  | EmptyString => EmptyString
  | String c rest =>
    match skip with
    | S k => String c (insertAtRunes k rest new)
    | O => new ++ String c (insertAtRunes (runeWidth s - 1) rest new)
    end
  end.

(** [strings.ReplaceAll(s, old, new)], that is [strings.Replace(s, old, new, -1)]:
    [s] itself when [old == new]; with an empty [old], [new] before every
    rune and at the end. *)
Definition ReplaceAll (s old new : string) : string :=
  if String.eqb old new then s
  else match old with
       | EmptyString => insertAtRunes 0 s new ++ new
       | String _ _ => replaceFrom 0 s old new
       end.

(** [fmt.Sprintf("%d", n)] for an unsigned and for a signed number. *)
Definition showNat (n : nat) : string := NilZero.string_of_uint (Nat.to_uint n).
Definition showInt (z : Z) : string := NilZero.string_of_int (Z.to_int z).

(** [fmt.Sprintf("%v", b)] for [b []byte]: the bytes in decimal, separated by
    spaces, in square brackets. *)
Fixpoint byteValues (b : string) : list string :=
  match b with
  | EmptyString => []
  | String c rest => showNat (nat_of_ascii c) :: byteValues rest
  end.

Definition showBytes (b : string) : string := "[" ++ Join (byteValues b) " " ++ "]".

(** [fmt.Sprintf("%v", l)] for [l []string]. *)
Definition showStrings (l : list string) : string := "[" ++ Join l " " ++ "]".

End GoStrings.
Import GoStrings.

(* ------------------------------------------------------------------ *)
(** * The database as the program sees it *)

Module Sql.

(** A Go [error], by its message (what [%v] prints). *)
Definition error : Type := string.

Inductive result (A : Type) : Type :=
| Ok (a : A)
| Err (e : error).
Arguments Ok {A} a.
Arguments Err {A} e.

(** What [rows.Scan] stores in an [interface{}] destination: [nil] for SQL
    NULL, or one of the driver's value types.  [VOther] stands for a
    [float64] or a [time.Time], carried with the text [%v] prints for it. *)
Inductive value : Type :=
| VNil
| VInt64 (n : Z)
| VBool (b : bool)
| VBytes (b : string)
| VString (s : string)
| VOther (shown : string).

(** [v != nil] is [negb (isNil v)]. *)
Definition isNil (v : value) : bool :=
  match v with VNil => true | _ => false end.

(** [fmt.Sprintf("%v", v)] on such a value. *)
Definition Sprintf_v (v : value) : string :=
  match v with
  | VNil => "<nil>"
  | VInt64 n => showInt n
  | VBool b => if b then "true" else "false"
  | VBytes b => showBytes b
  | VString s => s
  | VOther shown => shown
  end.

(** One row of [DESCRIBE <table>], as scanned into
    [field, typ, null, key, defaultVal, extra]. *)
Record descriptor : Type := {
  Field : string;
  Typ : string;
  Null : string;
  Key : string;
  DefaultVal : value;
  Extra : string
}.

(** An open result set of [SELECT *]: what [rows.Columns()] (in main.go,
    [rows.ColumnTypes()] and [ct.Name()]) returns, and for every row that
    [rows.Next()] announces, what the driver delivers: the row's values or a
    failure. *)
Record Rows : Type := {
  Columns : result (list string);
  Delivered : list (result (list value))
}.

(** The database handle.  [db.Query] is split by the destinations its result
    is scanned into; every field takes the text of the statement.  For
    SHOW TABLES and DESCRIBE the outcome of each [rows.Scan] is given (the
    decoded row or the error); [Exec] gives the error of [db.Exec], if any.
    The answers are data: what the server sent for each statement. *)
Record DB : Type := {
  QueryTables : string -> result (list (result string));
  QueryDescribe : string -> result (list (result descriptor));
  QuerySelect : string -> result Rows;
  Exec : string -> list value -> option error
}.

(** [rows.Scan(valuePtrs...)] with [n] destinations of type [interface{}]:
    the driver's failure if there is one, an error if the row has not [n]
    columns, otherwise the values. *)
Definition Scan (n : nat) (delivered : result (list value)) : result (list value) :=
  match delivered with
  | Err e => Err e
  | Ok values =>
    if (List.length values =? n)%nat then Ok values
    else Err ("sql: expected " ++ showNat (List.length values)
              ++ " destination arguments in Scan, not " ++ showNat n)
  end.

(** What a run does that can be seen from outside: the statements it sends
    and the lines it logs, in order. *)
Inductive event : Type :=
| EvQuery (sql : string)
| EvExec (sql : string) (args : list value)
| EvLog (line : string).

(** A computation that sends statements and logs: its result and its trace. *)
Definition IO (A : Type) : Type := (A * list event)%type.

Definition ret {A : Type} (a : A) : IO A := (a, []).

Definition bind {A B : Type} (m : IO A) (k : A -> IO B) : IO B :=
  let (a, t) := m in
  let (b, t') := k a in
  (b, (t ++ t')%list).

Definition logPrintf (line : string) : IO unit := (tt, [EvLog line]).

(** [if cond { log.Printf(...) }] *)
Definition logIf (cond : bool) (line : string) : IO unit :=
  if cond then logPrintf line else ret tt.

Definition isExec (e : event) : bool :=
  match e with EvExec _ _ => true | _ => false end.

Definition isQuery (e : event) : bool :=
  match e with EvQuery _ => true | _ => false end.

(** Go's [int] on a 64-bit platform: two's complement, wrapping. *)
Definition wrapInt (z : Z) : Z := ((z + 2 ^ 63) mod 2 ^ 64 - 2 ^ 63)%Z.
Definition maxInt : Z := (2 ^ 63 - 1)%Z.

End Sql.
Import Sql.

Notation "x <- m ;; k" := (bind m (fun x => k))
  (at level 61, m at next level, right associativity).
Notation "m ;;; k" := (bind m (fun _ => k))
  (at level 61, right associativity).

(* ------------------------------------------------------------------ *)
(** * The program *)

Module Engine.

(** The accumulators of one row's pass over the text columns:
    [updates], [args], [hasChanges] and the table's [totalReplacements]. *)
Record rowState : Type := {
  updates : list string;
  args : list value;
  hasChanges : bool;
  totalReplacements : Z
}.

Inductive exit : Type :=
| ExitOK               (* main returns *)
| ExitFatal.           (* log.Fatal / log.Fatalf: os.Exit(1) *)

Section Variant.

(** The two places where the variants differ: how a column value is turned
    into a string ([fmt.Sprintf("%v", _)] in main.go, [convertToString] in
    part_000), and the [verbose] flag (absent from main.go, which behaves as
    part_000 does with the flag off). *)
Variable render : value -> string.
Variable verbose : bool.

(** [getTables]: the loop over the rows of SHOW TABLES. *)
Fixpoint scanTables (rows : list (result string)) (tables : list string)
  : result (list string) :=
  match rows with
  | [] => Ok tables
  | Err e :: _ => Err e
  | Ok table :: rest => scanTables rest (tables ++ [table])%list
  end.

Definition getTables (db : DB) : IO (result (list string)) :=
  (match QueryTables db "SHOW TABLES" with
   | Err e => Err e
   | Ok rows => scanTables rows []
   end,
   [EvQuery "SHOW TABLES"]).

(** [getTextColumns]: the test on the declared type. *)
Definition isText (typ : string) : bool :=
  Contains (ToLower typ) "char"
  || Contains (ToLower typ) "text"
  || Contains (ToLower typ) "varchar".

(** [getTextColumns]: the loop over the rows of DESCRIBE. *)
Fixpoint scanColumns (rows : list (result descriptor)) (columns : list string)
  : result (list string) :=
  match rows with
  | [] => Ok columns
  | Err e :: _ => Err e
  | Ok d :: rest =>
    if isText (Typ d)
    then scanColumns rest (columns ++ [Field d])%list
    else scanColumns rest columns
  end.

Definition getTextColumns (db : DB) (table : string) : IO (result (list string)) :=
  let sql := "DESCRIBE " ++ table in
  (match QueryDescribe db sql with
   | Err e => Err e
   | Ok rows => scanColumns rows []
   end,
   [EvQuery sql]).

(** [updateRow]: the loop that collects [whereClauses] and [whereArgs].
    [columnsList] and [values] are walked together ([values[i]] next to
    [columnsList[i]]).  [processTable] makes [values] as long as
    [columnsList]; on a shorter [values], where Go panics at [values[i]],
    the walk ends. *)
Fixpoint whereOf (columnsList : list string) (values : list value)
  : list string * list value :=
  match columnsList, values with
  | colName :: columnsList', v :: values' =>
    let (whereClauses, whereArgs) := whereOf columnsList' values' in
    if negb (isNil v)
    then ((colName ++ " = ?") :: whereClauses, v :: whereArgs)
    else (whereClauses, whereArgs)
  | _, _ => ([], [])
  end.

Definition updateRow (db : DB) (table : string) (updates : list string)
    (args : list value) (columnsList : list string) (values : list value)
  : IO (option error) :=
  let (whereClauses, whereArgs) := whereOf columnsList values in
  if (List.length whereClauses =? 0)%nat
  then ret (Some "no valid WHERE clauses found")
  else
    let allArgs := (args ++ whereArgs)%list in
    let query := "UPDATE " ++ table ++ " SET " ++ Join updates ", "
                 ++ " WHERE " ++ Join whereClauses " AND " in
    (Exec db query allArgs, [EvExec query allArgs]).

(** [processTable]: what is done with [values[i]] once [columnsList[i]] is
    the text column [col]. *)
Definition checkValue (search replace : string) (rowCount : Z) (col : string)
    (v : value) (st : rowState) : IO rowState :=
  if negb (isNil v) then
    let strValue := render v in
    let newValue := ReplaceAll strValue search replace in
    if negb (String.eqb newValue strValue) then
      logIf verbose ("    Found match in column " ++ col ++ ": '" ++ strValue
                     ++ "' -> '" ++ newValue ++ "'") ;;;
      ret {| updates := (updates st ++ [(col ++ " = ?")%string])%list;
             args := (args st ++ [VString newValue])%list;
             hasChanges := true;
             totalReplacements := wrapInt (totalReplacements st + 1) |}
    else
      logIf (verbose && (rowCount <? 3)%Z)
            ("    No match in column " ++ col ++ ": '" ++ strValue
             ++ "' (searching for: '" ++ search ++ "')") ;;;
      ret st
  else ret st.

(** [processTable]: the inner loop, which looks for [col] in [columnsList]
    and stops at the first column of that name ([break]).  The two slices
    are walked together, as in [whereOf]. *)
Fixpoint findColumn (search replace : string) (rowCount : Z) (col : string)
    (columnsList : list string) (values : list value) (st : rowState)
  : IO rowState :=
  match columnsList, values with
  | colName :: columnsList', v :: values' =>
    if String.eqb colName col
    then checkValue search replace rowCount col v st
    else findColumn search replace rowCount col columnsList' values' st
  | _, _ => ret st
  end.

(** [processTable]: the loop over the text columns, for one row. *)
Fixpoint checkColumns (search replace : string) (rowCount : Z)
    (columns columnsList : list string) (values : list value) (st : rowState)
  : IO rowState :=
  match columns with
  | [] => ret st
  | col :: rest =>
    st' <- findColumn search replace rowCount col columnsList values st ;;
    checkColumns search replace rowCount rest columnsList values st'
  end.

(** [processTable]: the body of the loop over the rows, once the row is
    scanned into [values]: the pass over the text columns and the update.
    It gives the new [totalReplacements] and the error of [updateRow]. *)
Definition processRow (db : DB) (table search replace : string)
    (columns columnsList : list string) (values : list value)
    (total rowCount : Z) : IO (Z * option error) :=
  st <- checkColumns search replace rowCount columns columnsList values
          {| updates := []; args := []; hasChanges := false;
             totalReplacements := total |} ;;
  if hasChanges st then
    err <- updateRow db table (updates st) (args st) columnsList values ;;
    ret (totalReplacements st, err)
  else ret (totalReplacements st, None).

(** [processTable]: the loop over the rows, and what follows it. *)
Fixpoint scanRows (db : DB) (table search replace : string)
    (columns columnsList : list string) (rows : list (result (list value)))
    (total rowCount : Z) : IO (Z * option error) :=
  match rows with
  | [] =>
    logIf verbose ("  Processed " ++ showInt rowCount ++ " rows in table " ++ table) ;;;
    ret (total, None)
  | delivered :: rest =>
    match Scan (List.length columnsList) delivered with
    | Err e => ret (0%Z, Some e)
    | Ok values =>
      r <- processRow db table search replace columns columnsList values
             total rowCount ;;
      match snd r with
      | Some e => ret (0%Z, Some e)
      | None =>
        scanRows db table search replace columns columnsList rest
                 (fst r) (wrapInt (rowCount + 1))
      end
    end
  end.

Definition processTable (db : DB) (table search replace : string)
  : IO (Z * option error) :=
  r <- getTextColumns db table ;;
  match r with
  | Err e => ret (0%Z, Some e)
  | Ok columns =>
    logIf verbose ("  Table " ++ table ++ ": found text columns: "
                   ++ showStrings columns) ;;;
    if (List.length columns =? 0)%nat then ret (0%Z, None)
    else
      let sql := "SELECT * FROM " ++ table in
      (tt, [EvQuery sql]) ;;;
      match QuerySelect db sql with
      | Err e => ret (0%Z, Some e)
      | Ok rows =>
        match Columns rows with
        | Err e => ret (0%Z, Some e)
        | Ok columnsList =>
          scanRows db table search replace columns columnsList
                   (Delivered rows) 0%Z 0%Z
        end
      end
  end.

(** [main]: the body of the loop over the tables, after [processTable] has
    returned [(replacements, err)]. *)
Definition reportTable (table : string) (res : Z * option error) (total : Z)
  : IO Z :=
  let (replacements, err) := res in
  match err with
  | Some e =>
    logPrintf ("Error processing table " ++ table ++ ": " ++ e) ;;;
    ret total                                                     (* continue *)
  | None =>
    let total' := wrapInt (total + replacements) in
    logIf ((replacements >? 0)%Z || verbose)
          ("Table " ++ table ++ ": " ++ showInt replacements ++ " replacements") ;;;
    ret total'
  end.

(** [main]: the loop over the tables. *)
Fixpoint processTables (db : DB) (tables : list string) (search replace : string)
    (total : Z) : IO Z :=
  match tables with
  | [] => ret total
  | table :: rest =>
    res <- processTable db table search replace ;;
    total' <- reportTable table res total ;;
    processTables db rest search replace total'
  end.

(** [main], with [parseFlags] and [connectDB].  [open] is [sql.Open("mysql", _)]. *)
Definition main (open : string -> result DB)
    (host : string) (port : Z) (user password database search replace : string)
  : IO exit :=
  if String.eqb user "" || String.eqb database "" || String.eqb search "" then
    logPrintf "-user, -database, and -search are required" ;;; ret ExitFatal
  else
    let dsn := user ++ ":" ++ password ++ "@tcp(" ++ host ++ ":" ++ showInt port
               ++ ")/" ++ database in
    match open dsn with
    | Err e => logPrintf ("Failed to connect to database: " ++ e) ;;; ret ExitFatal
    | Ok db =>
      r <- getTables db ;;
      match r with
      | Err e => logPrintf ("Failed to get tables: " ++ e) ;;; ret ExitFatal
      | Ok tables =>
        logIf verbose ("Found " ++ showNat (List.length tables)
                       ++ " tables to process") ;;;
        total <- processTables db tables search replace 0%Z ;;
        logPrintf ("Total replacements: " ++ showInt total) ;;;
        ret ExitOK
      end
    end.

End Variant.
End Engine.

(** ** src/main.go *)
Module MainGo.

Record Config : Type := {
  Host : string;
  Port : Z;
  User : string;
  Password : string;
  Database : string;
  Search : string;
  Replace : string
}.

(** [strValue := fmt.Sprintf("%v", values[i])] *)
Definition render : value -> string := Sprintf_v.

Definition getTextColumns := Engine.getTextColumns.
Definition updateRow := Engine.updateRow.
Definition processTable (db : DB) (table search replace : string) :=
  Engine.processTable render false db table search replace.
Definition main (open : string -> result DB) (config : Config) :=
  Engine.main render false open (Host config) (Port config) (User config)
    (Password config) (Database config) (Search config) (Replace config).

End MainGo.

(** ** src/unnamed/part_000 *)
Module Part000.

Record Config : Type := {
  Host : string;
  Port : Z;
  User : string;
  Password : string;
  Database : string;
  Search : string;
  Replace : string;
  Verbose : bool
}.

Definition convertToString (v : value) : string :=
  match v with
  | VBytes b => b
  | VString s => s
  | _ => Sprintf_v v
  end.

Definition getTextColumns := Engine.getTextColumns.
Definition updateRow := Engine.updateRow.
Definition processTable (db : DB) (table search replace : string) (verbose : bool) :=
  Engine.processTable convertToString verbose db table search replace.
Definition main (open : string -> result DB) (config : Config) :=
  Engine.main convertToString (Verbose config) open (Host config) (Port config)
    (User config) (Password config) (Database config) (Search config)
    (Replace config).

End Part000.

(* ------------------------------------------------------------------ *)
(** * What the properties are stated with *)

Module Spec.

(** [values[i]] for the first [i] with [columnsList[i] == col]. *)
Fixpoint lookup (col : string) (columnsList : list string) (values : list value)
  : option value :=
  match columnsList, values with
  | colName :: columnsList', v :: values' =>
    if String.eqb colName col then Some v else lookup col columnsList' values'
  | _, _ => None
  end.

(** A parameterized assignment or equality predicate on a column. *)
Definition assignment (col : string) : string := col ++ " = ?".

Section Row.

Variable render : value -> string.
Variables search replace : string.
Variable columnsList : list string.
Variable values : list value.

(** The rendered value after the literal substring replacement. *)
Definition newValue (v : value) : string := ReplaceAll (render v) search replace.

(** A value that is not null and whose rendering changes under the
    replacement. *)
Definition changedValue (v : value) : bool :=
  negb (isNil v) && negb (String.eqb (newValue v) (render v)).

(** The accumulators after a changed column [col] of value [v]. *)
Definition record (col : string) (v : value) (st : Engine.rowState)
  : Engine.rowState :=
  {| Engine.updates := (Engine.updates st ++ [assignment col])%list;
     Engine.args := (Engine.args st ++ [VString (newValue v)])%list;
     Engine.hasChanges := true;
     Engine.totalReplacements := wrapInt (Engine.totalReplacements st + 1) |}.

(** A column of the row that changes under the replacement. *)
Definition changed (col : string) : bool :=
  match lookup col columnsList values with
  | Some v => changedValue v
  | None => false
  end.

(** The argument bound to the assignment of a changed column. *)
Definition newArg (col : string) : value :=
  match lookup col columnsList values with
  | Some v => VString (newValue v)
  | None => VNil
  end.

(** The columns of the row whose original value is not null, with that
    value, in the order of the scan. *)
Definition nonNull : list (string * value) :=
  filter (fun p => negb (isNil (snd p))) (combine columnsList values).

(** The SET clause of the row's UPDATE: the changed text columns, in the
    order of the classifier, and the arguments bound to them. *)
Definition setColumns (columns : list string) : list string :=
  filter changed columns.

(** The UPDATE statement for the row and its arguments: one parameterized
    assignment per changed column, one parameterized equality per column
    that is not null; the new values, then the original ones. *)
Definition updateOf (table : string) (columns : list string) : event :=
  EvExec ("UPDATE " ++ table
          ++ " SET " ++ Join (map assignment (setColumns columns)) ", "
          ++ " WHERE " ++ Join (map (fun p => assignment (fst p)) nonNull) " AND ")
         (map newArg (setColumns columns) ++ map snd nonNull)%list.

End Row.

(** The classifier, in the words of the specification: the names of the
    columns whose lower-cased type contains "char", "text" or "varchar". *)
Definition classify (ds : list descriptor) : list string :=
  map Field
      (filter (fun d => Contains (ToLower (Typ d)) "char"
                        || Contains (ToLower (Typ d)) "text"
                        || Contains (ToLower (Typ d)) "varchar") ds).

(** [n] times [totalReplacements++]. *)
Definition bump (n : nat) (total : Z) : Z :=
  Nat.iter n (fun t => wrapInt (t + 1)) total.

(** The accumulators at the start of a row. *)
Definition freshRow (total : Z) : Engine.rowState :=
  {| Engine.updates := []; Engine.args := []; Engine.hasChanges := false;
     Engine.totalReplacements := total |}.

(** The UPDATE statements of a trace. *)
Definition updatesOf (t : list event) : list event := filter isExec t.

(** A delivered row that decodes and has a changed text column. *)
Definition rowChanged (render : value -> string) (search replace : string)
    (columns columnsList : list string) (delivered : result (list value)) : bool :=
  match Scan (List.length columnsList) delivered with
  | Ok values => existsb (changed render search replace columnsList values) columns
  | Err _ => false
  end.

End Spec.
Import Spec.

(* ------------------------------------------------------------------ *)
(** * Sample databases *)

Module Samples.

Definition column (field typ : string) : descriptor :=
  {| Field := field; Typ := typ; Null := "YES"; Key := ""; DefaultVal := VNil;
     Extra := "" |}.

(** Table [users (id int, bio varchar)] with the row
    [(1, "visit old.site.com now")] and a row with a null [bio]; table
    [logs (n int)].  The driver delivers every value as bytes. *)
Definition usersDb : DB :=
  {| QueryTables := fun _ => Ok [Ok "users"; Ok "logs"];
     QueryDescribe := fun sql =>
       if String.eqb sql "DESCRIBE users"
       then Ok [Ok (column "id" "int(11)"); Ok (column "bio" "varchar(255)")]
       else Ok [Ok (column "n" "int(11)")];
     QuerySelect := fun sql =>
       if String.eqb sql "SELECT * FROM users"
       then Ok {| Columns := Ok ["id"; "bio"];
                  Delivered := [Ok [VBytes "1"; VBytes "visit old.site.com now"];
                                Ok [VBytes "2"; VNil]] |}
       else Ok {| Columns := Ok ["n"]; Delivered := [Ok [VBytes "7"]] |};
     Exec := fun _ _ => None |}.

(** Tables [t1 (c text)] and [t2 (c text)].  In [t1] the first row holds
    "old a" and the second row fails to decode; [t2] holds one row "old b". *)
Definition brokenDb : DB :=
  {| QueryTables := fun _ => Ok [Ok "t1"; Ok "t2"];
     QueryDescribe := fun _ => Ok [Ok (column "c" "text")];
     QuerySelect := fun sql =>
       if String.eqb sql "SELECT * FROM t1"
       then Ok {| Columns := Ok ["c"];
                  Delivered := [Ok [VBytes "old a"]; Err "unexpected EOF"] |}
       else Ok {| Columns := Ok ["c"]; Delivered := [Ok [VBytes "old b"]] |};
     Exec := fun _ _ => None |}.

(** As [brokenDb], but both rows of [t1] decode ("old a", "old c") and the
    server refuses the UPDATE of the second. *)
Definition refusingDb : DB :=
  {| QueryTables := fun _ => Ok [Ok "t1"; Ok "t2"];
     QueryDescribe := fun _ => Ok [Ok (column "c" "text")];
     QuerySelect := fun sql =>
       if String.eqb sql "SELECT * FROM t1"
       then Ok {| Columns := Ok ["c"];
                  Delivered := [Ok [VBytes "old a"]; Ok [VBytes "old c"]] |}
       else Ok {| Columns := Ok ["c"]; Delivered := [Ok [VBytes "old b"]] |};
     Exec := fun _ args =>
       match args with
       | [VString "new c"; _] => Some "Error 1205: Lock wait timeout exceeded"
       | _ => None
       end |}.

(** Table [t (c text)] with the single row ("foo"), delivered as bytes. *)
Definition fooDb : DB :=
  {| QueryTables := fun _ => Ok [Ok "t"];
     QueryDescribe := fun _ => Ok [Ok (column "c" "text")];
     QuerySelect := fun _ =>
       Ok {| Columns := Ok ["c"]; Delivered := [Ok [VBytes "foo"]] |};
     Exec := fun _ _ => None |}.

(** A server that cannot be reached: [sql.Open] does not connect, so the
    first statement is the one that fails. *)
Definition downDb : DB :=
  {| QueryTables := fun _ => Err "dial tcp 127.0.0.1:3306: connect: connection refused";
     QueryDescribe := fun _ => Err "dial tcp 127.0.0.1:3306: connect: connection refused";
     QuerySelect := fun _ => Err "dial tcp 127.0.0.1:3306: connect: connection refused";
     Exec := fun _ _ => Some "dial tcp 127.0.0.1:3306: connect: connection refused" |}.

(** Table [odd]: the second row of its DESCRIBE does not decode, after a
    text column has been read. *)
Definition oddDb : DB :=
  {| QueryTables := fun _ => Ok [Ok "odd"];
     QueryDescribe := fun _ =>
       Ok [Ok (column "a" "text");
           Err "sql: Scan error on column index 5, name 'Extra': converting NULL to string is unsupported"];
     QuerySelect := fun _ =>
       Ok {| Columns := Ok ["a"]; Delivered := [Ok [VBytes "old"]] |};
     Exec := fun _ _ => None |}.

(** Table [t (c text)], which the user may describe but not read. *)
Definition deniedDb : DB :=
  {| QueryTables := fun _ => Ok [Ok "t"];
     QueryDescribe := fun _ => Ok [Ok (column "c" "text")];
     QuerySelect := fun _ => Err "Error 1142: SELECT command denied";
     Exec := fun _ _ => None |}.


(** Tables [t1 (c text)] and [t2 (c text)], the values delivered as bytes:
    [t1] holds "a" and "b", [t2] holds "a"; the server refuses the UPDATE
    whose new value is "[88]". *)
Definition digitsDb : DB :=
  {| QueryTables := fun _ => Ok [Ok "t1"; Ok "t2"];
     QueryDescribe := fun _ => Ok [Ok (column "c" "text")];
     QuerySelect := fun sql =>
       if String.eqb sql "SELECT * FROM t1"
       then Ok {| Columns := Ok ["c"];
                  Delivered := [Ok [VBytes "a"]; Ok [VBytes "b"]] |}
       else Ok {| Columns := Ok ["c"]; Delivered := [Ok [VBytes "a"]] |};
     Exec := fun _ args =>
       match args with
       | [VString "[88]"; _] => Some "Error 1205: Lock wait timeout exceeded"
       | _ => None
       end |}.

Definition mainGoConfig (search replace : string) : MainGo.Config :=
  {| MainGo.Host := "localhost"; MainGo.Port := 3306; MainGo.User := "root";
     MainGo.Password := ""; MainGo.Database := "app";
     MainGo.Search := search; MainGo.Replace := replace |}.

Definition part000Config (search replace : string) (verbose : bool)
  : Part000.Config :=
  {| Part000.Host := "localhost"; Part000.Port := 3306; Part000.User := "root";
     Part000.Password := ""; Part000.Database := "app";
     Part000.Search := search; Part000.Replace := replace;
     Part000.Verbose := verbose |}.

End Samples.
Import Samples.

(* ------------------------------------------------------------------ *)
(** * What the properties of a run are stated with *)

Module Run.

Definition isLog (e : event) : bool :=
  match e with EvLog _ => true | _ => false end.

(** The statements of a trace: what is left when the log lines are taken out. *)
Definition statements (t : list event) : list event :=
  filter (fun e => negb (isLog e)) t.

(** A DESCRIBE query. *)
Definition isDescribe (e : event) : bool :=
  match e with
  | EvQuery sql => String.prefix "DESCRIBE " sql
  | _ => false
  end.

(** The number of changed text columns over the rows of a scan. *)
Fixpoint changedCells (render : value -> string) (search replace : string)
    (columns columnsList : list string) (rows : list (result (list value))) : nat :=
  match rows with
  | [] => 0
  | delivered :: rest =>
    match Scan (List.length columnsList) delivered with
    | Ok values =>
      List.length (filter (changed render search replace columnsList values) columns)
    | Err _ => 0
    end + changedCells render search replace columns columnsList rest
  end.


(** What [main] adds to its total for a table, given what [processTable]
    returned: the count when there is no error, nothing otherwise. *)
Definition counted (res : Z * option error) : Z :=
  match snd res with
  | Some _ => 0%Z
  | None => fst res
  end.

(** The sum of what the tables of a run count for. *)
Fixpoint tablesTotal (render : value -> string) (verbose : bool) (db : DB)
    (search replace : string) (tables : list string) : Z :=
  match tables with
  | [] => 0%Z
  | table :: rest =>
    (counted (fst (Engine.processTable render verbose db table search replace))
     + tablesTotal render verbose db search replace rest)%Z
  end.

(** The data source name [connectDB] builds. *)
Definition dsnOf (host : string) (port : Z) (user password database : string)
  : string :=
  user ++ ":" ++ password ++ "@tcp(" ++ host ++ ":" ++ showInt port ++ ")/" ++ database.

(** The bytes [%v] prints for a byte sequence: digits, spaces and the two
    brackets. *)
Definition listByte (c : ascii) : bool :=
  let n := nat_of_ascii c in
  ((48 <=? n) && (n <=? 57) || (n =? 32) || (n =? 91) || (n =? 93))%nat.

Fixpoint allBytes (p : ascii -> bool) (s : string) : bool :=
  match s with
  | EmptyString => true
  | String c rest => p c && allBytes p rest
  end.

End Run.
Import Run.

(* ------------------------------------------------------------------ *)
(** * Facts about the string functions *)

Section StringFacts.

Lemma length_append (a b : string) :
  String.length (a ++ b) = String.length a + String.length b.
Proof. induction a as [|c a IH]; simpl; [reflexivity | now rewrite IH]. Qed.

Lemma append_assoc (a b c : string) : (a ++ b) ++ c = a ++ (b ++ c).
Proof. induction a as [|x a IH]; simpl; [reflexivity | now rewrite IH]. Qed.

Lemma prefix_append (a q : string) : String.prefix a (a ++ q) = true.
Proof.
  induction a as [|c a IH]; simpl.
  - now destruct q.
  - destruct (ascii_dec c c) as [_|ne]; [exact IH | now elim ne].
Qed.

Lemma prefix_split (a s : string) :
  String.prefix a s = true -> exists q, s = a ++ q.
Proof.
  revert s; induction a as [|c a IH]; intros s H.
  - now exists s.
  - destruct s as [|d s]; simpl in H; [discriminate|].
    destruct (ascii_dec c d) as [->|]; [|discriminate].
    destruct (IH _ H) as [q ->]. now exists q.
Qed.

Lemma prefix_length (a s : string) :
  String.prefix a s = true -> String.length a <= String.length s.
Proof.
  intros H. destruct (prefix_split _ _ H) as [q ->].
  rewrite length_append. lia.
Qed.

Lemma Contains_nil (x : string) : Contains "" x = String.prefix x "".
Proof. unfold Contains. apply orb_false_r. Qed.

Lemma Contains_cons (c : ascii) (s x : string) :
  Contains (String c s) x = String.prefix x (String c s) || Contains s x.
Proof. reflexivity. Qed.

(** [Contains] is the existence of an occurrence. *)
Lemma Contains_occurs (s x : string) :
  Contains s x = true <-> exists p q, s = p ++ x ++ q.
Proof.
  split.
  - induction s as [|c s IH]; intros H.
    + rewrite Contains_nil in H. destruct (prefix_split _ _ H) as [q Hq].
      now exists "", q.
    + rewrite Contains_cons in H. apply orb_true_iff in H as [H|H].
      * destruct (prefix_split _ _ H) as [q Hq]. now exists "", q.
      * destruct (IH H) as (p & q & ->). now exists (String c p), q.
  - intros (p & q & ->). induction p as [|c p IH].
    + change ("" ++ x ++ q) with (x ++ q).
      destruct (x ++ q) eqn:E.
      * rewrite Contains_nil, <- E. apply prefix_append.
      * rewrite Contains_cons, <- E, prefix_append. reflexivity.
    + change (String c p ++ x ++ q) with (String c (p ++ x ++ q)).
      rewrite Contains_cons, IH. apply orb_true_r.
Qed.

Lemma Contains_trans (a b c : string) :
  Contains a b = true -> Contains b c = true -> Contains a c = true.
Proof.
  rewrite !Contains_occurs. intros (p & q & ->) (p' & q' & ->).
  exists (p ++ p'), (q' ++ q). now rewrite !append_assoc.
Qed.

Lemma append_inj_l (a b q q' : string) :
  String.length a = String.length b -> a ++ q = b ++ q' -> a = b.
Proof.
  revert b; induction a as [|c a IH]; intros [|d b]; simpl; try discriminate.
  - reflexivity.
  - intros L E. injection L as L. injection E as -> E. f_equal. eauto.
Qed.

Variables old new : string.
Hypothesis old_nonempty : old <> "".

Lemma old_length : 1 <= String.length old.
Proof. destruct old; [now elim old_nonempty | simpl; lia]. Qed.

(** The replacement never lengthens when [new] is not longer than [old] ... *)
Lemma replaceFrom_shrinks (s : string) :
  String.length new <= String.length old ->
  forall k, String.length (replaceFrom k s old new) <= String.length s - k.
Proof.
  intros L. induction s as [|c s IH]; intros k; [simpl; lia|].
  cbn [replaceFrom String.length].
  destruct k as [|k]; [|apply IH].
  destruct (String.prefix old (String c s)) eqn:P.
  - apply prefix_length in P. cbn [String.length] in P. pose proof old_length.
    rewrite length_append. specialize (IH (String.length old - 1)). lia.
  - cbn [String.length]. specialize (IH 0). lia.
Qed.

(** ... and never shortens when [new] is not shorter. *)
Lemma replaceFrom_grows (s : string) :
  String.length old <= String.length new ->
  forall k, String.length s - k <= String.length (replaceFrom k s old new).
Proof.
  intros L. induction s as [|c s IH]; intros k; [simpl; lia|].
  cbn [replaceFrom String.length].
  destruct k as [|k]; [|apply IH].
  destruct (String.prefix old (String c s)) eqn:P.
  - apply prefix_length in P. cbn [String.length] in P. pose proof old_length.
    rewrite length_append. specialize (IH (String.length old - 1)). lia.
  - cbn [String.length]. specialize (IH 0). lia.
Qed.

(** Without an occurrence nothing is replaced. *)
Lemma replaceFrom_absent (s : string) :
  Contains s old = false -> replaceFrom 0 s old new = s.
Proof.
  induction s as [|c s IH]; [reflexivity|].
  rewrite Contains_cons. intros H. apply orb_false_iff in H as [P H].
  cbn [replaceFrom]. rewrite P. now rewrite IH.
Qed.

(** With an occurrence and [new] other than [old], the string changes. *)
Lemma replaceFrom_present (s : string) :
  old <> new -> Contains s old = true -> replaceFrom 0 s old new <> s.
Proof.
  intros ne. induction s as [|c s IH].
  - rewrite Contains_nil. intros P. destruct old; [now elim old_nonempty | discriminate].
  - rewrite Contains_cons. cbn [replaceFrom].
    intros H. destruct (String.prefix old (String c s)) eqn:P.
    + clear H IH. intros E.
      pose proof (prefix_length _ _ P) as PL. simpl in PL.
      destruct (prefix_split _ _ P) as [q Hq].
      pose proof old_length as OL.
      assert (LS : String.length s = String.length old - 1 + String.length q).
      { apply (f_equal String.length) in Hq. rewrite length_append in Hq.
        simpl in Hq. lia. }
      destruct (Nat.lt_trichotomy (String.length new) (String.length old))
        as [L|[L|L]].
      * pose proof (replaceFrom_shrinks s (Nat.lt_le_incl _ _ L)
                      (String.length old - 1)) as B.
        apply (f_equal String.length) in E. rewrite length_append in E.
        simpl in E. lia.
      * rewrite Hq in E. apply append_inj_l in E; [|exact L].
        now apply ne.
      * pose proof (replaceFrom_grows s (Nat.lt_le_incl _ _ L)
                      (String.length old - 1)) as B.
        apply (f_equal String.length) in E. rewrite length_append in E.
        simpl in E. lia.
    + simpl in H. intros E. injection E as E. now apply IH.
Qed.

(** Every replaced occurrence leaves [new] in the result. *)
Lemma replaceFrom_leaves_new (s : string) :
  Contains s old = true -> Contains (replaceFrom 0 s old new) new = true.
Proof.
  induction s as [|c s IH].
  - rewrite Contains_nil. intros P. destruct old; [now elim old_nonempty | discriminate].
  - rewrite Contains_cons. cbn [replaceFrom].
    intros H. destruct (String.prefix old (String c s)) eqn:P.
    + apply Contains_occurs. now exists "", (replaceFrom (String.length old - 1) s old new).
    + simpl in H. rewrite Contains_cons, (IH H). apply orb_true_r.
Qed.

End StringFacts.

Lemma ReplaceAll_nonempty (s old new : string) :
  old <> "" -> old <> new -> ReplaceAll s old new = replaceFrom 0 s old new.
Proof.
  intros ne d. unfold ReplaceAll.
  destruct (String.eqb_spec old new); [contradiction|].
  destruct old; [now elim ne | reflexivity].
Qed.

Lemma ReplaceAll_same (s old : string) : ReplaceAll s old old = s.
Proof. unfold ReplaceAll. now rewrite String.eqb_refl. Qed.

(** A pass changes a string exactly when it contains [old] and [new] is
    another string. *)
Lemma ReplaceAll_fixed (s old new : string) :
  old <> "" ->
  (ReplaceAll s old new = s <-> Contains s old = false \/ old = new).
Proof.
  intros ne. split.
  - intros E. destruct (String.eqb_spec old new) as [|d]; [now right|left].
    rewrite ReplaceAll_nonempty in E by assumption.
    destruct (Contains s old) eqn:C; [|reflexivity].
    now elim (replaceFrom_present old new ne s d C).
  - intros [C| ->]; [|apply ReplaceAll_same].
    destruct (String.eqb_spec old new) as [->|d]; [apply ReplaceAll_same|].
    rewrite ReplaceAll_nonempty by assumption. now apply replaceFrom_absent.
Qed.

(* ------------------------------------------------------------------ *)
(** * Facts about traces and counters *)

Lemma bind_fst {A B : Type} (m : IO A) (k : A -> IO B) :
  fst (bind m k) = fst (k (fst m)).
Proof. unfold bind. destruct m as [a t]. simpl. now destruct (k a). Qed.

Lemma bind_snd {A B : Type} (m : IO A) (k : A -> IO B) :
  snd (bind m k) = (snd m ++ snd (k (fst m)))%list.
Proof. unfold bind. destruct m as [a t]. simpl. now destruct (k a). Qed.

Lemma logIf_updates (c : bool) (line : string) : updatesOf (snd (logIf c line)) = [].
Proof. now destruct c. Qed.

Lemma updatesOf_app (t t' : list event) :
  updatesOf (t ++ t') = (updatesOf t ++ updatesOf t')%list.
Proof. apply filter_app. Qed.

Lemma wrapInt_small (z : Z) : (- 2 ^ 63 <= z <= maxInt)%Z -> wrapInt z = z.
Proof. unfold wrapInt, maxInt. intros H. rewrite Z.mod_small; lia. Qed.

Lemma wrapInt_succ (z : Z) : (0 <= z < maxInt)%Z -> wrapInt (z + 1) = (z + 1)%Z.
Proof. unfold maxInt. intros H. apply wrapInt_small. unfold maxInt. lia. Qed.

Lemma bump_S (n : nat) (total : Z) :
  bump (S n) total = bump n (wrapInt (total + 1)).
Proof. unfold bump. now rewrite Nat.iter_succ_r. Qed.

Lemma bump_small (n : nat) (total : Z) :
  (0 <= total)%Z -> (total + Z.of_nat n <= maxInt)%Z ->
  bump n total = (total + Z.of_nat n)%Z.
Proof.
  revert total. induction n as [|n IH]; intros total H0 H1.
  - simpl. lia.
  - rewrite bump_S, wrapInt_succ by lia. rewrite IH by lia. lia.
Qed.

(* ------------------------------------------------------------------ *)
(** * Facts about the pass over one row *)

Section RowFacts.

Variable render : value -> string.
Variable verbose : bool.
Variables search replace : string.
Variable rowCount : Z.
Variable columnsList : list string.
Variable values : list value.

Let changed' := changed render search replace columnsList values.
Let newArg' := newArg render search replace columnsList values.

Lemma checkValue_state (col : string) (v : value) (st : Engine.rowState) :
  fst (Engine.checkValue render verbose search replace rowCount col v st)
  = if changedValue render search replace v
    then record render search replace col v st else st.
Proof.
  unfold Engine.checkValue, changedValue, newValue.
  destruct (isNil v); simpl; [reflexivity|].
  destruct (String.eqb _ _); simpl; now rewrite bind_fst.
Qed.

Lemma checkValue_trace (col : string) (v : value) (st : Engine.rowState) :
  updatesOf (snd (Engine.checkValue render verbose search replace rowCount col v st)) = [].
Proof.
  unfold Engine.checkValue.
  destruct (isNil v); simpl; [reflexivity|].
  destruct (String.eqb _ _); simpl; rewrite bind_snd, updatesOf_app, logIf_updates;
    reflexivity.
Qed.

Lemma findColumn_lookup (col : string) (st : Engine.rowState) :
  Engine.findColumn render verbose search replace rowCount col columnsList values st
  = match lookup col columnsList values with
    | Some v => Engine.checkValue render verbose search replace rowCount col v st
    | None => ret st
    end.
Proof.
  clear changed' newArg'. revert values.
  induction columnsList as [|c cl IH]; intros [|v vs]; simpl; try reflexivity.
  destruct (String.eqb c col); [reflexivity | apply IH].
Qed.

Lemma findColumn_state (col : string) (st : Engine.rowState) :
  fst (Engine.findColumn render verbose search replace rowCount col columnsList values st)
  = if changed' col
    then {| Engine.updates := (Engine.updates st ++ [assignment col])%list;
            Engine.args := (Engine.args st ++ [newArg' col])%list;
            Engine.hasChanges := true;
            Engine.totalReplacements := wrapInt (Engine.totalReplacements st + 1) |}
    else st.
Proof.
  rewrite findColumn_lookup. unfold changed', newArg', changed, newArg.
  destruct (lookup col columnsList values) as [v|]; [|reflexivity].
  now rewrite checkValue_state.
Qed.

Lemma findColumn_trace (col : string) (st : Engine.rowState) :
  updatesOf (snd (Engine.findColumn render verbose search replace rowCount col
                    columnsList values st)) = [].
Proof.
  rewrite findColumn_lookup.
  destruct (lookup col columnsList values); [apply checkValue_trace | reflexivity].
Qed.

(** The state after the pass over the text columns. *)
Lemma checkColumns_state (columns : list string) (st : Engine.rowState) :
  fst (Engine.checkColumns render verbose search replace rowCount columns
         columnsList values st)
  = {| Engine.updates :=
         (Engine.updates st ++ map assignment (filter changed' columns))%list;
       Engine.args := (Engine.args st ++ map newArg' (filter changed' columns))%list;
       Engine.hasChanges := Engine.hasChanges st || existsb changed' columns;
       Engine.totalReplacements :=
         bump (List.length (filter changed' columns)) (Engine.totalReplacements st) |}.
Proof.
  revert st. induction columns as [|col rest IH]; intros st.
  - simpl. rewrite !app_nil_r, orb_false_r. now destruct st.
  - cbn [Engine.checkColumns]. rewrite bind_fst, IH, findColumn_state.
    cbn [filter existsb]. destruct (changed' col); cbn [Engine.updates Engine.args
      Engine.hasChanges Engine.totalReplacements map List.length].
    + rewrite <- !app_assoc, bump_S, orb_true_r. reflexivity.
    + reflexivity.
Qed.

Lemma checkColumns_trace (columns : list string) (st : Engine.rowState) :
  updatesOf (snd (Engine.checkColumns render verbose search replace rowCount columns
                    columnsList values st)) = [].
Proof.
  revert st. induction columns as [|col rest IH]; intros st; [reflexivity|].
  cbn [Engine.checkColumns]. now rewrite bind_snd, updatesOf_app, findColumn_trace, IH.
Qed.

(** The WHERE clause is made of the columns whose value is not null. *)
Lemma whereOf_nonNull :
  Engine.whereOf columnsList values
  = (map (fun p => assignment (fst p)) (nonNull columnsList values),
     map snd (nonNull columnsList values)).
Proof.
  clear changed' newArg'. unfold nonNull. revert values.
  induction columnsList as [|c cl IH]; intros [|v vs]; simpl; try reflexivity.
  rewrite IH. now destruct (isNil v).
Qed.

(** A column found with a value that is not null is part of the WHERE clause. *)
Lemma lookup_nonNull (col : string) (v : value) :
  lookup col columnsList values = Some v -> isNil v = false ->
  In (col, v) (nonNull columnsList values).
Proof.
  clear changed' newArg'. unfold nonNull. revert values.
  induction columnsList as [|c cl IH]; intros [|w vs]; simpl; try discriminate.
  destruct (String.eqb_spec c col) as [->|ne].
  - intros [= ->] N. rewrite N. now left.
  - intros L N. specialize (IH _ L N). destruct (isNil w); simpl; auto.
Qed.

Lemma changed_nonNull (col : string) :
  changed' col = true ->
  exists v, lookup col columnsList values = Some v /\ isNil v = false
            /\ In (col, v) (nonNull columnsList values).
Proof.
  unfold changed', changed, changedValue.
  destruct (lookup col columnsList values) as [v|] eqn:L; [|discriminate].
  intros H. apply andb_true_iff in H as [N _]. apply negb_true_iff in N.
  exists v. repeat split; auto using lookup_nonNull.
Qed.

End RowFacts.

Lemma assignment_inj (a b : string) : assignment a = assignment b -> a = b.
Proof.
  unfold assignment. intros E.
  assert (L : String.length a = String.length b).
  { apply (f_equal String.length) in E. rewrite !length_append in E. lia. }
  exact (append_inj_l _ _ _ _ L E).
Qed.

Section UpdateFacts.

Variable render : value -> string.
Variable verbose : bool.
Variable db : DB.
Variables table search replace : string.
Variable columns columnsList : list string.
Variable values : list value.
Variables total rowCount : Z.

Let changed' := changed render search replace columnsList values.
Let row := Engine.processRow render verbose db table search replace columns
             columnsList values total rowCount.

(** [updateRow] fails without sending anything when no column is left for
    the WHERE clause, and otherwise sends one UPDATE. *)
Lemma updateRow_cases (ups : list string) (ars : list value) :
  Engine.updateRow db table ups ars columnsList values
  = match nonNull columnsList values with
    | [] => (Some "no valid WHERE clauses found", [])
    | _ :: _ =>
      let query := "UPDATE " ++ table ++ " SET " ++ Join ups ", " ++ " WHERE "
                   ++ Join (map (fun p => assignment (fst p))
                                (nonNull columnsList values)) " AND " in
      let allArgs := (ars ++ map snd (nonNull columnsList values))%list in
      (Exec db query allArgs, [EvExec query allArgs])
    end.
Proof.
  unfold Engine.updateRow. rewrite whereOf_nonNull.
  now destruct (nonNull columnsList values).
Qed.

(** A row with a changed column has a column for the WHERE clause. *)
Lemma changed_where :
  existsb changed' columns = true -> nonNull columnsList values <> [].
Proof.
  intros H. apply existsb_exists in H as (col & _ & C).
  destruct (changed_nonNull _ _ _ _ _ _ C) as (v & _ & _ & I).
  intros E. now rewrite E in I.
Qed.

(** The UPDATE statements of a row: the one of [updateOf] if a text column
    changed, none otherwise. *)
Lemma processRow_updates :
  updatesOf (snd row)
  = if existsb changed' columns
    then [updateOf render search replace columnsList values table columns]
    else [].
Proof.
  unfold row, Engine.processRow. rewrite bind_snd, updatesOf_app.
  fold (freshRow total). rewrite checkColumns_trace, checkColumns_state.
  cbn [Engine.hasChanges Engine.updates Engine.args freshRow app orb].
  fold changed'. destruct (existsb changed' columns) eqn:C; [|reflexivity].
  rewrite bind_snd, updateRow_cases. pose proof (changed_where C) as W.
  destruct (nonNull columnsList values) eqn:N; [now elim W|].
  cbn. unfold updateOf, setColumns. rewrite N. reflexivity.
Qed.

(** The counter after a row. *)
Lemma processRow_total :
  fst (fst row) = bump (List.length (filter changed' columns)) total.
Proof.
  unfold row, Engine.processRow. rewrite bind_fst.
  fold (freshRow total). rewrite checkColumns_state.
  cbn [Engine.hasChanges Engine.updates Engine.args Engine.totalReplacements freshRow orb].
  fold changed'. destruct (existsb changed' columns); [|reflexivity].
  now rewrite bind_fst.
Qed.

(** The error of a row is the one of the server, if any. *)
Lemma processRow_error :
  snd (fst row)
  = if existsb changed' columns
    then match updatesOf (snd row) with
         | [EvExec query allArgs] => Exec db query allArgs
         | _ => None
         end
    else None.
Proof.
  rewrite processRow_updates.
  unfold row, Engine.processRow. rewrite bind_fst.
  fold (freshRow total). rewrite checkColumns_state.
  cbn [Engine.hasChanges Engine.updates Engine.args freshRow app orb].
  fold changed'. destruct (existsb changed' columns) eqn:C; [|reflexivity].
  rewrite bind_fst, updateRow_cases. pose proof (changed_where C) as W.
  destruct (nonNull columnsList values) eqn:N; [now elim W|].
  cbn. unfold setColumns. rewrite N. reflexivity.
Qed.

End UpdateFacts.

(* ------------------------------------------------------------------ *)
(** * Facts about the scan of a table *)

Section TableFacts.

Variable render : value -> string.
Variable verbose : bool.
Variable db : DB.
Variables table search replace : string.
Variable columns columnsList : list string.

Let scan := Engine.scanRows render verbose db table search replace columns columnsList.
Let rowChanged' := rowChanged render search replace columns columnsList.

Lemma scanRows_nil (total rowCount : Z) :
  fst (scan [] total rowCount) = (total, None)
  /\ updatesOf (snd (scan [] total rowCount)) = [].
Proof.
  unfold scan. cbn [Engine.scanRows]. rewrite bind_fst, bind_snd, updatesOf_app, logIf_updates.
  now split.
Qed.

(** One step of the loop over the rows. *)
Lemma scanRows_cons (delivered : result (list value)) (rest : list (result (list value)))
    (total rowCount : Z) :
  scan (delivered :: rest) total rowCount
  = match Scan (List.length columnsList) delivered with
    | Err e => ret (0%Z, Some e)
    | Ok values =>
      r <- Engine.processRow render verbose db table search replace columns
             columnsList values total rowCount ;;
      match snd r with
      | Some e => ret (0%Z, Some e)
      | None => scan rest (fst r) (wrapInt (rowCount + 1))
      end
    end.
Proof. reflexivity. Qed.

(** A scan that ends on an error reports no replacement. *)
Lemma scanRows_error_zero (rows : list (result (list value))) :
  forall total rowCount e,
    snd (fst (scan rows total rowCount)) = Some e ->
    fst (fst (scan rows total rowCount)) = 0%Z.
Proof.
  induction rows as [|delivered rest IH]; intros total rowCount e.
  - destruct (scanRows_nil total rowCount) as [-> _]. discriminate.
  - rewrite scanRows_cons.
    destruct (Scan (List.length columnsList) delivered) as [values|e']; [|reflexivity].
    rewrite !bind_fst.
    destruct (snd (fst (Engine.processRow _ _ _ _ _ _ _ _ _ _ _))); [reflexivity|].
    apply IH.
Qed.

(** At most one UPDATE for every row with a changed text column. *)
Lemma scanRows_updates_le (rows : list (result (list value))) :
  forall total rowCount,
    List.length (updatesOf (snd (scan rows total rowCount)))
    <= List.length (filter rowChanged' rows).
Proof.
  induction rows as [|delivered rest IH]; intros total rowCount.
  - destruct (scanRows_nil total rowCount) as [_ ->]. simpl. lia.
  - rewrite scanRows_cons. cbn [filter]. unfold rowChanged' at 1, rowChanged.
    destruct (Scan (List.length columnsList) delivered) as [values|e']; [|simpl; lia].
    rewrite bind_snd, updatesOf_app, length_app, processRow_updates.
    specialize (IH (fst (fst (Engine.processRow render verbose db table search replace
                                columns columnsList values total rowCount)))
                   (wrapInt (rowCount + 1))).
    destruct (snd (fst (Engine.processRow _ _ _ _ _ _ _ _ _ _ _)));
      destruct (existsb _ columns); cbn [List.length ret snd updatesOf filter]; lia.
Qed.

(** A scan that ends without error has sent exactly one UPDATE for every
    row with a changed text column. *)
Lemma scanRows_updates_eq (rows : list (result (list value))) :
  forall total rowCount,
    snd (fst (scan rows total rowCount)) = None ->
    List.length (updatesOf (snd (scan rows total rowCount)))
    = List.length (filter rowChanged' rows).
Proof.
  induction rows as [|delivered rest IH]; intros total rowCount.
  - destruct (scanRows_nil total rowCount) as [_ ->]. reflexivity.
  - rewrite scanRows_cons. cbn [filter]. unfold rowChanged' at 1, rowChanged.
    destruct (Scan (List.length columnsList) delivered) as [values|e']; [|discriminate].
    rewrite bind_fst, bind_snd, updatesOf_app, length_app, processRow_updates.
    specialize (IH (fst (fst (Engine.processRow render verbose db table search replace
                                columns columnsList values total rowCount)))
                   (wrapInt (rowCount + 1))).
    destruct (snd (fst (Engine.processRow _ _ _ _ _ _ _ _ _ _ _))); [discriminate|].
    intros H. specialize (IH H).
    destruct (existsb _ columns); cbn [List.length]; lia.
Qed.

(** A row that fails to decode after rows that went through: the count is
    zero, and the UPDATEs of the earlier rows have been sent. *)
Lemma scanRows_decode_failure (done rest : list (result (list value))) (e : error) :
  forall total rowCount,
    snd (fst (scan done total rowCount)) = None ->
    fst (scan (done ++ Err e :: rest) total rowCount) = (0%Z, Some e)
    /\ updatesOf (snd (scan (done ++ Err e :: rest) total rowCount))
       = updatesOf (snd (scan done total rowCount)).
Proof.
  induction done as [|delivered done IH]; intros total rowCount.
  - intros _. destruct (scanRows_nil total rowCount) as [_ ->]. now split.
  - cbn [app]. rewrite !scanRows_cons.
    destruct (Scan (List.length columnsList) delivered) as [values|e']; [|discriminate].
    rewrite !bind_fst, !bind_snd, !updatesOf_app.
    destruct (snd (fst (Engine.processRow _ _ _ _ _ _ _ _ _ _ _))); [discriminate|].
    intros H. destruct (IH _ _ H) as [F U]. now rewrite F, U.
Qed.

End TableFacts.

(** [processTable] returns a count of zero with every error. *)
Lemma processTable_error_zero (render : value -> string) (verbose : bool)
    (db : DB) (table search replace : string) (e : error) :
  snd (fst (Engine.processTable render verbose db table search replace)) = Some e ->
  fst (fst (Engine.processTable render verbose db table search replace)) = 0%Z.
Proof.
  unfold Engine.processTable. rewrite !bind_fst.
  destruct (fst (Engine.getTextColumns db table)) as [cols|e']; [|reflexivity].
  rewrite !bind_fst.
  destruct (List.length cols =? 0)%nat; [discriminate|].
  rewrite !bind_fst.
  destruct (QuerySelect db _) as [rows|e']; [|reflexivity].
  destruct (Columns rows) as [cl|e']; [|reflexivity].
  apply scanRows_error_zero.
Qed.

Lemma existsb_false_filter {A : Type} (f : A -> bool) (l : list A) :
  existsb f l = false -> filter f l = [].
Proof.
  induction l as [|a l IH]; simpl; [reflexivity|].
  intros H. apply orb_false_iff in H as [-> H]. auto.
Qed.

(* ------------------------------------------------------------------ *)
(** * Null columns *)

(** C4: a column of a scanned row whose original value is null is skipped:
    it is not considered for the replacement, so it is never assigned in the
    SET clause, and it gives no equality predicate, and no argument, to the
    WHERE clause of the UPDATE built for the row; the WHERE clause is made
    of the columns that are not null. *)
Theorem C4_null_columns_skipped
    (render : value -> string) (verbose : bool) (db : DB)
    (table search replace : string) (columns columnsList : list string)
    (values : list value) (total rowCount : Z) (col : string) :
  (forall v, In (col, v) (combine columnsList values) -> v = VNil) ->
  let sets := map assignment (setColumns render search replace columnsList values columns) in
  let wheres := map (fun p => assignment (fst p)) (nonNull columnsList values) in
  let whereArgs := map snd (nonNull columnsList values) in
  changed render search replace columnsList values col = false
  /\ ~ In (assignment col) sets
  /\ ~ In (assignment col) wheres
  /\ ~ In VNil whereArgs
  /\ Engine.whereOf columnsList values = (wheres, whereArgs)
  /\ forall ev,
       In ev (updatesOf (snd (Engine.processRow render verbose db table search
                                replace columns columnsList values total rowCount))) ->
       ev = EvExec ("UPDATE " ++ table ++ " SET " ++ Join sets ", "
                    ++ " WHERE " ++ Join wheres " AND ")
                   (map (newArg render search replace columnsList values)
                        (setColumns render search replace columnsList values columns)
                    ++ whereArgs)%list.
Proof.
  intros N sets wheres whereArgs.
  assert (NW : forall v, In (col, v) (nonNull columnsList values) -> False).
  { intros v I. unfold nonNull in I. apply filter_In in I as [I nn].
    rewrite (N v I) in nn. discriminate. }
  assert (C : changed render search replace columnsList values col = false).
  { destruct (changed render search replace columnsList values col) eqn:C;
      [|reflexivity].
    destruct (changed_nonNull _ _ _ _ _ _ C) as (v & _ & _ & I). now elim (NW v). }
  split; [exact C|]. split; [|split; [|split; [|split]]].
  - intros I. apply in_map_iff in I as (c & E & I).
    apply assignment_inj in E. subst c.
    apply filter_In in I as [_ I]. rewrite C in I. discriminate.
  - intros I. apply in_map_iff in I as ([c v] & E & I).
    apply assignment_inj in E. simpl in E. subst c. now elim (NW v).
  - intros I. apply in_map_iff in I as ([c v] & E & I). simpl in E. subst v.
    apply filter_In in I as [_ nn]. discriminate.
  - apply whereOf_nonNull.
  - intros ev I. rewrite processRow_updates in I.
    destruct (existsb _ columns); [|now elim I].
    destruct I as [<-|[]]. reflexivity.
Qed.

Lemma C4_witness :
  (forall v, In ("bio", v) (combine ["id"; "bio"] [VBytes "2"; VNil]) -> v = VNil)
  /\ ~ In "bio = ?" (fst (Engine.whereOf ["id"; "bio"] [VBytes "2"; VNil]))
  /\ Engine.whereOf ["id"; "bio"] [VBytes "2"; VNil] = (["id = ?"], [VBytes "2"]).
Proof.
  assert (N : forall v, In ("bio", v) (combine ["id"; "bio"] [VBytes "2"; VNil])
                        -> v = VNil).
  { intros v [E|[E|[]]]; [discriminate E | now injection E]. }
  split; [exact N|].
  destruct (C4_null_columns_skipped Sprintf_v false usersDb "users" "old" "new"
              ["bio"] ["id"; "bio"] [VBytes "2"; VNil] 0 0 "bio" N)
    as (_ & _ & W & _ & E & _).
  split; [|exact E]. rewrite E. exact W.
Defined.

(* ------------------------------------------------------------------ *)
(** * The UPDATE of a row *)

(** C5: for every scanned row at most one UPDATE statement is issued, and
    one is issued exactly when at least one of the row's classified text
    columns changed under the replacement; a row with no changed column
    produces no UPDATE and adds nothing to the count.  Over a scan pass
    there are no more UPDATEs than rows with a changed column. *)
Theorem C5_at_most_one_update_per_row
    (render : value -> string) (verbose : bool) (db : DB)
    (table search replace : string) (columns columnsList : list string)
    (values : list value) (rows : list (result (list value)))
    (total rowCount : Z) :
  let row := Engine.processRow render verbose db table search replace columns
               columnsList values total rowCount in
  let anyChanged := existsb (changed render search replace columnsList values) columns in
  List.length (updatesOf (snd row)) <= 1
  /\ (updatesOf (snd row) <> [] <-> anyChanged = true)
  /\ (anyChanged = false -> updatesOf (snd row) = [] /\ fst row = (total, None))
  /\ List.length (updatesOf (snd (Engine.scanRows render verbose db table search
                                    replace columns columnsList rows total rowCount)))
     <= List.length (filter (rowChanged render search replace columns columnsList) rows)
  /\ List.length (filter (rowChanged render search replace columns columnsList) rows)
     <= List.length rows.
Proof.
  intros row anyChanged.
  pose proof (processRow_updates render verbose db table search replace columns
                columnsList values total rowCount) as U.
  fold row anyChanged in U.
  split; [|split; [|split; [|split]]].
  - rewrite U. destruct anyChanged; simpl; lia.
  - rewrite U. destruct anyChanged; split; congruence.
  - intros A. split; [now rewrite U, A|].
    pose proof (processRow_total render verbose db table search replace columns
                  columnsList values total rowCount) as T.
    pose proof (processRow_error render verbose db table search replace columns
                  columnsList values total rowCount) as E.
    fold row anyChanged in T, E. rewrite A in E.
    rewrite (existsb_false_filter _ _ A) in T. simpl in T.
    destruct row as [[n e] t]. simpl in T, E. now subst.
  - apply scanRows_updates_le.
  - apply filter_length_le.
Qed.

(** C6: for every row that produces an UPDATE, the SET clause holds exactly
    one parameterized assignment per changed classified column, bound to the
    new value, and the WHERE clause is the AND-conjunction of one
    parameterized equality per column of the row whose original value is not
    null, bound to the original values; a changed column is among them, with
    its original value. *)
Theorem C6_update_statement
    (render : value -> string) (verbose : bool) (db : DB)
    (table search replace : string) (columns columnsList : list string)
    (values : list value) (total rowCount : Z) :
  existsb (changed render search replace columnsList values) columns = true ->
  let changedColumns := filter (changed render search replace columnsList values) columns in
  let originals := filter (fun p => negb (isNil (snd p))) (combine columnsList values) in
  updatesOf (snd (Engine.processRow render verbose db table search replace columns
                    columnsList values total rowCount))
  = [EvExec ("UPDATE " ++ table
             ++ " SET " ++ Join (map (fun col => col ++ " = ?") changedColumns) ", "
             ++ " WHERE " ++ Join (map (fun p => fst p ++ " = ?") originals) " AND ")
            (map (newArg render search replace columnsList values) changedColumns
             ++ map snd originals)%list]
  /\ forall col, In col changedColumns ->
       exists v, lookup col columnsList values = Some v
                 /\ In (col, v) originals
                 /\ newArg render search replace columnsList values col
                    = VString (ReplaceAll (render v) search replace)
                 /\ ReplaceAll (render v) search replace <> render v.
Proof.
  intros A changedColumns originals. split.
  - rewrite processRow_updates, A. reflexivity.
  - intros col I. apply filter_In in I as [_ C].
    destruct (changed_nonNull _ _ _ _ _ _ C) as (v & L & _ & I).
    exists v. split; [exact L|]. split; [exact I|].
    unfold newArg, changed, changedValue, newValue in *. rewrite L in *.
    split; [reflexivity|].
    apply andb_true_iff in C as [_ C]. apply negb_true_iff in C.
    now apply String.eqb_neq.
Qed.

Lemma C6_witness :
  existsb (changed Part000.convertToString "old.site.com" "new.site.com"
             ["id"; "bio"] [VBytes "1"; VBytes "visit old.site.com now"])
          ["bio"] = true
  /\ updatesOf (snd (Engine.processRow Part000.convertToString true usersDb "users"
                       "old.site.com" "new.site.com" ["bio"] ["id"; "bio"]
                       [VBytes "1"; VBytes "visit old.site.com now"] 0 0))
     = [EvExec "UPDATE users SET bio = ? WHERE id = ? AND bio = ?"
               [VString "visit new.site.com now"; VBytes "1";
                VBytes "visit old.site.com now"]].
Proof.
  split; [reflexivity|].
  exact (proj1 (C6_update_statement Part000.convertToString true usersDb "users"
                  "old.site.com" "new.site.com" ["bio"] ["id"; "bio"]
                  [VBytes "1"; VBytes "visit old.site.com now"] 0 0 eq_refl)).
Defined.

(* ------------------------------------------------------------------ *)
(** * The column classifier *)

Lemma scanColumns_decoded (ds : list descriptor) (acc : list string) :
  Engine.scanColumns (map Ok ds) acc = Ok (acc ++ classify ds)%list.
Proof.
  revert acc. induction ds as [|d ds IH]; intros acc; simpl.
  - now rewrite app_nil_r.
  - unfold classify, Engine.isText in *. cbn [filter].
    destruct (Contains (ToLower (Typ d)) "char" || Contains (ToLower (Typ d)) "text"
              || Contains (ToLower (Typ d)) "varchar").
    + rewrite IH, <- app_assoc. reflexivity.
    + apply IH.
Qed.

(** C8: for the column descriptors returned by schema introspection, the
    classifier's output holds a column exactly when its lower-cased declared
    type contains "char", "text" or "varchar", in the order in which the
    columns were returned; nullability, key, default and extra have no part
    in it. *)
Theorem C8_classifier (db : DB) (table : string) (ds ds' : list descriptor) :
  QueryDescribe db ("DESCRIBE " ++ table) = Ok (map Ok ds) ->
  fst (Engine.getTextColumns db table)
  = Ok (map Field
            (filter (fun d => Contains (ToLower (Typ d)) "char"
                              || Contains (ToLower (Typ d)) "text"
                              || Contains (ToLower (Typ d)) "varchar") ds))
  /\ (forall name,
        In name (classify ds)
        <-> exists d, In d ds /\ Field d = name
                      /\ (Contains (ToLower (Typ d)) "char" = true
                          \/ Contains (ToLower (Typ d)) "text" = true
                          \/ Contains (ToLower (Typ d)) "varchar" = true))
  /\ (map (fun d => (Field d, Typ d)) ds' = map (fun d => (Field d, Typ d)) ds ->
      classify ds' = classify ds).
Proof.
  intros Q. split; [|split].
  - unfold Engine.getTextColumns. cbn [fst]. rewrite Q.
    now rewrite scanColumns_decoded.
  - intros name. unfold classify. rewrite in_map_iff. split.
    + intros (d & F & I). apply filter_In in I as [I T].
      exists d. repeat split; auto.
      apply orb_true_iff in T as [T|T]; [apply orb_true_iff in T as [T|T]|]; auto.
    + intros (d & I & F & T). exists d. split; [exact F|].
      apply filter_In. split; [exact I|].
      destruct T as [->|[->| ->]]; rewrite ?orb_true_r; reflexivity.
  - clear Q. revert ds'. induction ds as [|d ds IH]; intros [|d' ds']; simpl;
      try discriminate; [reflexivity|].
    intros E. injection E as F T E. unfold classify in *. cbn [filter].
    rewrite T. destruct (_ || _); cbn [map]; rewrite (IH _ E); congruence.
Qed.

Lemma C8_witness :
  QueryDescribe usersDb ("DESCRIBE " ++ "users")
  = Ok (map Ok [column "id" "int(11)"; column "bio" "varchar(255)"])
  /\ fst (Engine.getTextColumns usersDb "users") = Ok ["bio"].
Proof.
  split; [reflexivity|].
  exact (proj1 (C8_classifier usersDb "users"
                  [column "id" "int(11)"; column "bio" "varchar(255)"] [] eq_refl)).
Defined.

(* ------------------------------------------------------------------ *)
(** * Tables without text columns, and tables that fail *)

(** C9: for a table whose classifier output is empty, [processTable] issues
    no row scan (the DESCRIBE is its only statement), performs no
    replacement, and returns a count of zero and no error. *)
Theorem C9_no_text_columns
    (render : value -> string) (verbose : bool) (db : DB)
    (table search replace : string) (tr : list event) :
  Engine.getTextColumns db table = (Ok [], tr) ->
  let run := Engine.processTable render verbose db table search replace in
  fst run = (0%Z, None)
  /\ filter isQuery (snd run) = [EvQuery ("DESCRIBE " ++ table)]
  /\ updatesOf (snd run) = []
  /\ snd run = (EvQuery ("DESCRIBE " ++ table)
                :: snd (logIf verbose ("  Table " ++ table
                                       ++ ": found text columns: []")))%list.
Proof.
  intros G run.
  assert (T : tr = [EvQuery ("DESCRIBE " ++ table)]).
  { unfold Engine.getTextColumns in G. now injection G. }
  subst tr. unfold run, Engine.processTable. rewrite G.
  destruct verbose; repeat split; reflexivity.
Qed.

Lemma C9_witness :
  Engine.getTextColumns usersDb "logs" = (Ok [], [EvQuery "DESCRIBE logs"])
  /\ MainGo.processTable usersDb "logs" "old" "new"
     = ((0%Z, None), [EvQuery "DESCRIBE logs"]).
Proof.
  split; [reflexivity|].
  destruct (C9_no_text_columns MainGo.render false usersDb "logs" "old" "new"
              [EvQuery "DESCRIBE logs"] eq_refl) as (R & _ & _ & T).
  unfold MainGo.processTable.
  destruct (Engine.processTable MainGo.render false usersDb "logs" "old" "new")
    as [r t].
  simpl in R, T. now subst.
Defined.

(** C10: whenever [processTable] ends on an error, be it a row that fails
    to decode or an UPDATE that fails in the middle of the scan, it returns
    a count of zero with the error; [main] then logs the error, adds nothing
    to the total and prints no line for the table.  The changes already
    committed on earlier rows are left out: in the sample run the first row
    of [t1] is updated before the second fails to decode, two UPDATEs are
    executed in all, and the total reported is 1. *)
Theorem C10_error_reports_zero
    (render : value -> string) (verbose : bool) (db : DB)
    (table search replace : string) (n total : Z) (e : error) (tr : list event) :
  Engine.processTable render verbose db table search replace = ((n, Some e), tr) ->
  n = 0%Z
  /\ Engine.reportTable verbose table (n, Some e) total
     = (total, [EvLog ("Error processing table " ++ table ++ ": " ++ e)])
  /\ (forall columns columnsList done rest e' count rowCount,
        let scan := Engine.scanRows render verbose db table search replace
                      columns columnsList in
        snd (fst (scan done count rowCount)) = None ->
        fst (scan (done ++ Err e' :: rest)%list count rowCount) = (0%Z, Some e')
        /\ List.length (updatesOf (snd (scan (done ++ Err e' :: rest)%list
                                           count rowCount)))
           = List.length (filter (rowChanged render search replace columns
                                    columnsList) done))
  /\ Part000.main (fun _ => Ok brokenDb) (part000Config "old" "new" false)
     = (Engine.ExitOK,
        [EvQuery "SHOW TABLES";
         EvQuery "DESCRIBE t1"; EvQuery "SELECT * FROM t1";
         EvExec "UPDATE t1 SET c = ? WHERE c = ?" [VString "new a"; VBytes "old a"];
         EvLog "Error processing table t1: unexpected EOF";
         EvQuery "DESCRIBE t2"; EvQuery "SELECT * FROM t2";
         EvExec "UPDATE t2 SET c = ? WHERE c = ?" [VString "new b"; VBytes "old b"];
         EvLog "Table t2: 1 replacements";
         EvLog "Total replacements: 1"])
  /\ Exec brokenDb "UPDATE t1 SET c = ? WHERE c = ?" [VString "new a"; VBytes "old a"]
     = None.
Proof.
  intros P. split; [|split; [|split; [|split]]]; try reflexivity.
  - pose proof (processTable_error_zero render verbose db table search replace e) as Z.
    rewrite P in Z. now apply Z.
  - intros columns columnsList done rest e' count rowCount scan H.
    destruct (scanRows_decode_failure render verbose db table search replace
                columns columnsList done rest e' count rowCount H) as [F U].
    split; [exact F|]. unfold scan. rewrite U.
    now apply scanRows_updates_eq.
Qed.

Lemma C10_witness :
  Part000.processTable refusingDb "t1" "old" "new" false
  = ((0%Z, Some "Error 1205: Lock wait timeout exceeded"),
     [EvQuery "DESCRIBE t1"; EvQuery "SELECT * FROM t1";
      EvExec "UPDATE t1 SET c = ? WHERE c = ?" [VString "new a"; VBytes "old a"];
      EvExec "UPDATE t1 SET c = ? WHERE c = ?" [VString "new c"; VBytes "old c"]])
  /\ 0%Z = 0%Z
  /\ Engine.reportTable false "t1"
       (0%Z, Some "Error 1205: Lock wait timeout exceeded") 5
     = (5%Z, [EvLog "Error processing table t1: Error 1205: Lock wait timeout exceeded"]).
Proof.
  split; [reflexivity|].
  destruct (C10_error_reports_zero Part000.convertToString false refusingDb "t1"
              "old" "new" 0 5 "Error 1205: Lock wait timeout exceeded"
              [EvQuery "DESCRIBE t1"; EvQuery "SELECT * FROM t1";
               EvExec "UPDATE t1 SET c = ? WHERE c = ?" [VString "new a"; VBytes "old a"];
               EvExec "UPDATE t1 SET c = ? WHERE c = ?" [VString "new c"; VBytes "old c"]]
              eq_refl) as (Z & R & _).
  split; [exact Z | exact R].
Defined.

(* ------------------------------------------------------------------ *)
(** * Rows that hold only nulls *)


(* ------------------------------------------------------------------ *)
(** * The two variants *)

(** Two renderings that agree on the values of the rows give the same run. *)
Section Agreement.

Variables render1 render2 : value -> string.
Variable verbose : bool.
Variable db : DB.
Variables table search replace : string.
Variables columns columnsList : list string.

Lemma checkValue_agree (rowCount : Z) (col : string) (v : value)
    (st : Engine.rowState) :
  render1 v = render2 v ->
  Engine.checkValue render1 verbose search replace rowCount col v st
  = Engine.checkValue render2 verbose search replace rowCount col v st.
Proof. intros E. unfold Engine.checkValue. now rewrite E. Qed.

Lemma findColumn_agree (rowCount : Z) (col : string) (values : list value) :
  (forall v, In v values -> render1 v = render2 v) ->
  forall st,
    Engine.findColumn render1 verbose search replace rowCount col columnsList values st
    = Engine.findColumn render2 verbose search replace rowCount col columnsList values st.
Proof.
  intros A st. rewrite !findColumn_lookup.
  destruct (lookup col columnsList values) as [v|] eqn:L; [|reflexivity].
  apply checkValue_agree, A.
  clear A.
  revert values L. induction columnsList as [|c cl IH]; intros [|w vs]; simpl;
    try discriminate.
  destruct (String.eqb c col); [intros [= ->]; now left | right; eauto].
Qed.

Lemma checkColumns_agree (rowCount : Z) (values : list value) :
  (forall v, In v values -> render1 v = render2 v) ->
  forall st,
    Engine.checkColumns render1 verbose search replace rowCount columns columnsList
      values st
    = Engine.checkColumns render2 verbose search replace rowCount columns columnsList
        values st.
Proof.
  intros A. induction columns as [|col rest IH]; intros st; [reflexivity|].
  cbn [Engine.checkColumns]. rewrite (findColumn_agree _ _ _ A).
  unfold bind. destruct (Engine.findColumn render2 _ _ _ _ _ _ _ _) as [st' t].
  now rewrite IH.
Qed.

Lemma scanRows_agree (rows : list (result (list value))) :
  (forall vs v, In (Ok vs) rows -> In v vs -> render1 v = render2 v) ->
  forall total rowCount,
    Engine.scanRows render1 verbose db table search replace columns columnsList
      rows total rowCount
    = Engine.scanRows render2 verbose db table search replace columns columnsList
        rows total rowCount.
Proof.
  induction rows as [|delivered rest IH]; intros A total rowCount; [reflexivity|].
  cbn [Engine.scanRows].
  destruct (Scan (List.length columnsList) delivered) as [values|e] eqn:S;
    [|reflexivity].
  assert (D : delivered = Ok values).
  { unfold Scan in S. destruct delivered as [vs|]; [|discriminate].
    destruct (_ =? _)%nat; [congruence | discriminate]. }
  unfold Engine.processRow.
  rewrite (checkColumns_agree rowCount values);
    [|intros v I; apply (A values); [left; exact D | exact I]].
  unfold bind.
  destruct (Engine.checkColumns render2 _ _ _ _ _ _ _ _) as [st t].
  destruct (Engine.hasChanges st).
  - destruct (Engine.updateRow _ _ _ _ _ _) as [err t']. cbn [ret snd fst].
    destruct err; [reflexivity|].
    rewrite IH; [reflexivity|]. intros vs v I. apply A. now right.
  - cbn [ret snd fst]. rewrite IH; [reflexivity|]. intros vs v I. apply A. now right.
Qed.

End Agreement.

Lemma processTable_agree (render1 render2 : value -> string) (verbose : bool)
    (db : DB) (table search replace : string) :
  (forall rows vs v,
      QuerySelect db ("SELECT * FROM " ++ table) = Ok rows ->
      In (Ok vs) (Delivered rows) -> In v vs -> render1 v = render2 v) ->
  Engine.processTable render1 verbose db table search replace
  = Engine.processTable render2 verbose db table search replace.
Proof.
  intros A. unfold Engine.processTable.
  destruct (Engine.getTextColumns db table) as [[cols|e] t]; [|reflexivity].
  cbn [bind]. destruct (logIf verbose _) as [[] t'].
  destruct (List.length cols =? 0)%nat; [reflexivity|].
  cbn [bind]. destruct (QuerySelect db ("SELECT * FROM " ++ table)) as [rows|e] eqn:Q;
    [|reflexivity].
  destruct (Columns rows) as [cl|e]; [|reflexivity].
  rewrite (scanRows_agree render1 render2); [reflexivity|].
  intros vs v. now apply A.
Qed.

Lemma renderings_agree (v : value) :
  (forall b, v <> VBytes b) -> MainGo.render v = Part000.convertToString v.
Proof. intros nb. destruct v; try reflexivity. now elim (nb b). Qed.

(** C2, at the input where the variants part: a column value delivered as
    the bytes of "foo", searched for "foo".  main.go renders the value with
    [%v], as "[102 111 111]", finds nothing and sends no UPDATE; part_000
    renders it as "foo" and sends one.  On every value that is not a byte
    sequence the two renderings agree, and on a table whose rows hold no
    byte sequence main.go does what part_000 does with the flag off. *)
Theorem C2_variants_differ_on_bytes :
  MainGo.render (VBytes "foo") = "[102 111 111]"
  /\ Part000.convertToString (VBytes "foo") = "foo"
  /\ MainGo.processTable fooDb "t" "foo" "bar"
     = ((0%Z, None), [EvQuery "DESCRIBE t"; EvQuery "SELECT * FROM t"])
  /\ Part000.processTable fooDb "t" "foo" "bar" false
     = ((1%Z, None),
        [EvQuery "DESCRIBE t"; EvQuery "SELECT * FROM t";
         EvExec "UPDATE t SET c = ? WHERE c = ?" [VString "bar"; VBytes "foo"]])
  /\ (forall v, (forall b, v <> VBytes b) ->
                MainGo.render v = Part000.convertToString v)
  /\ (forall db table search replace,
        (forall rows vs v,
            QuerySelect db ("SELECT * FROM " ++ table) = Ok rows ->
            In (Ok vs) (Delivered rows) -> In v vs -> forall b, v <> VBytes b) ->
        MainGo.processTable db table search replace
        = Part000.processTable db table search replace false).
Proof.
  repeat split.
  - apply renderings_agree.
  - intros db table search replace A. apply processTable_agree.
    intros rows vs v Q I J. apply renderings_agree. eauto.
Qed.

(* ------------------------------------------------------------------ *)
(** * A second pass of the replacement *)

(** C7, as the code has it: for a non-empty search literal, a second pass
    with the same pair gives the same result as the first exactly when the
    result of the first pass holds no occurrence of the search literal (or
    search and replace are the same string).  When the replace literal
    contains the search literal and differs from it, every input with an
    occurrence changes again on the second pass; an input without an
    occurrence is left as it is by both. *)
Theorem C7_second_pass (s search replace : string) :
  search <> "" ->
  let once := ReplaceAll s search replace in
  let twice := ReplaceAll once search replace in
  (twice = once <-> Contains once search = false \/ search = replace)
  /\ (Contains replace search = true -> search <> replace ->
      Contains s search = true -> twice <> once)
  /\ (Contains s search = false -> once = s /\ twice = once).
Proof.
  intros ne once twice. split; [|split].
  - apply ReplaceAll_fixed, ne.
  - intros Cr d Cs T.
    assert (Co : Contains once search = true).
    { apply Contains_trans with replace; [|exact Cr].
      unfold once. rewrite ReplaceAll_nonempty by assumption.
      now apply replaceFrom_leaves_new. }
    apply ReplaceAll_fixed in T; [|exact ne].
    destruct T as [T|T]; [congruence | contradiction].
  - intros Cs.
    assert (O : once = s) by (apply ReplaceAll_fixed; auto).
    split; [exact O|]. unfold twice. rewrite O. exact O.
Qed.

Lemma C7_witness :
  "a" <> ""
  /\ ReplaceAll "a" "a" "aa" = "aa"
  /\ ReplaceAll (ReplaceAll "a" "a" "aa") "a" "aa" <> ReplaceAll "a" "a" "aa".
Proof.
  assert (ne : "a" <> "") by discriminate.
  split; [exact ne|]. split; [reflexivity|].
  destruct (C7_second_pass "a" "a" "aa" ne) as (_ & N & _).
  apply N; [reflexivity | discriminate | reflexivity].
Defined.

(** C7, as stated, fails: "a" does not contain "ab", yet replacing "ab" by
    "a" in "abb" gives "ab", and a second pass gives "a". *)
Lemma C7_counterexample :
  Contains "a" "ab" = false
  /\ ReplaceAll "abb" "ab" "a" = "ab"
  /\ ReplaceAll (ReplaceAll "abb" "ab" "a") "ab" "a" = "a".
Proof. repeat split. Qed.

(* ------------------------------------------------------------------ *)
(** * Listing the tables and the columns *)

Lemma scanTables_decoded (names : list string) (tail : list (result string))
    (acc : list string) :
  Engine.scanTables (map Ok names ++ tail)%list acc
  = Engine.scanTables tail (acc ++ names)%list.
Proof.
  revert acc. induction names as [|n names IH]; intros acc; simpl.
  - now rewrite app_nil_r.
  - rewrite IH, <- app_assoc. reflexivity.
Qed.

Lemma scanColumns_prefix (ds : list descriptor) (tail : list (result descriptor))
    (acc : list string) :
  Engine.scanColumns (map Ok ds ++ tail)%list acc
  = Engine.scanColumns tail (acc ++ classify ds)%list.
Proof.
  revert acc. induction ds as [|d ds IH]; intros acc; simpl.
  - now rewrite app_nil_r.
  - unfold classify, Engine.isText in *. cbn [filter].
    destruct (Contains (ToLower (Typ d)) "char" || Contains (ToLower (Typ d)) "text"
              || Contains (ToLower (Typ d)) "varchar").
    + rewrite IH, <- app_assoc. reflexivity.
    + apply IH.
Qed.

(** X1: [getTables] sends SHOW TABLES and nothing else.  When the row after
    the decoded names [names] fails to decode, the result is that error and
    no name is returned, whatever follows; when every row decodes, the result
    is the names in the order of the rows. *)
Theorem X1_getTables_all_or_error
    (db : DB) (names : list string) (tail : list (result string)) :
  QueryTables db "SHOW TABLES" = Ok (map Ok names ++ tail)%list ->
  snd (Engine.getTables db) = [EvQuery "SHOW TABLES"]
  /\ (tail = [] -> fst (Engine.getTables db) = Ok names)
  /\ (forall e rest, tail = Err e :: rest -> fst (Engine.getTables db) = Err e).
Proof.
  intros Q. unfold Engine.getTables. cbn [fst snd]. rewrite Q, scanTables_decoded.
  split; [reflexivity|]. split.
  - intros ->. reflexivity.
  - intros e rest ->. reflexivity.
Qed.

Lemma X1_witness :
  QueryTables usersDb "SHOW TABLES" = Ok (map Ok ["users"; "logs"] ++ [])%list
  /\ fst (Engine.getTables usersDb) = Ok ["users"; "logs"].
Proof.
  split; [reflexivity|].
  exact (proj1 (proj2 (X1_getTables_all_or_error usersDb ["users"; "logs"] []
                         eq_refl)) eq_refl).
Defined.

(** X2: when schema introspection fails, be it the DESCRIBE query itself or
    the decoding of one of its rows (after any number of decoded rows),
    [processTable] returns that error with a count of zero and has sent the
    DESCRIBE only: no row scan, no UPDATE, and no text column found before
    the failure is used. *)
Theorem X2_introspection_failure
    (render : value -> string) (db : DB) (table search replace : string)
    (e : error) :
  (QueryDescribe db ("DESCRIBE " ++ table) = Err e
   \/ exists ds rest,
        QueryDescribe db ("DESCRIBE " ++ table) = Ok (map Ok ds ++ Err e :: rest)%list) ->
  fst (Engine.getTextColumns db table) = Err e
  /\ forall verbose,
       Engine.processTable render verbose db table search replace
       = ((0%Z, Some e), [EvQuery ("DESCRIBE " ++ table)]).
Proof.
  intros Q.
  assert (G : Engine.getTextColumns db table = (Err e, [EvQuery ("DESCRIBE " ++ table)])).
  { unfold Engine.getTextColumns. destruct Q as [-> | (ds & rest & ->)];
      [reflexivity|]. now rewrite scanColumns_prefix. }
  split; [now rewrite G|].
  intros verbose. unfold Engine.processTable. rewrite G. reflexivity.
Qed.

Lemma X2_witness :
  (QueryDescribe oddDb ("DESCRIBE " ++ "odd")
   = Err "sql: Scan error on column index 5, name 'Extra': converting NULL to string is unsupported"
   \/ exists ds rest,
        QueryDescribe oddDb ("DESCRIBE " ++ "odd")
        = Ok (map Ok ds
              ++ Err "sql: Scan error on column index 5, name 'Extra': converting NULL to string is unsupported"
                 :: rest)%list)
  /\ Part000.processTable oddDb "odd" "old" "new" true
     = ((0%Z, Some "sql: Scan error on column index 5, name 'Extra': converting NULL to string is unsupported"),
        [EvQuery "DESCRIBE odd"]).
Proof.
  assert (Q : QueryDescribe oddDb ("DESCRIBE " ++ "odd")
              = Err "sql: Scan error on column index 5, name 'Extra': converting NULL to string is unsupported"
              \/ exists ds rest,
                   QueryDescribe oddDb ("DESCRIBE " ++ "odd")
                   = Ok (map Ok ds
                         ++ Err "sql: Scan error on column index 5, name 'Extra': converting NULL to string is unsupported"
                            :: rest)%list).
  { right. exists [column "a" "text"], []. reflexivity. }
  split; [exact Q|].
  exact (proj2 (X2_introspection_failure Part000.convertToString oddDb "odd"
                  "old" "new" _ Q) true).
Defined.

(* ------------------------------------------------------------------ *)
(** * The statements of a table's processing *)

Lemma statements_app (t t' : list event) :
  statements (t ++ t') = (statements t ++ statements t')%list.
Proof. apply filter_app. Qed.

Lemma logIf_statements (c : bool) (line : string) : statements (snd (logIf c line)) = [].
Proof. now destruct c. Qed.


Section StatementFacts.

Variable render : value -> string.
Variable verbose : bool.
Variable db : DB.
Variables table search replace : string.
Variables columns columnsList : list string.

Lemma checkValue_statements (rowCount : Z) (col : string) (v : value)
    (st : Engine.rowState) :
  statements (snd (Engine.checkValue render verbose search replace rowCount col v st)) = [].
Proof.
  unfold Engine.checkValue.
  destruct (isNil v); simpl; [reflexivity|].
  destruct (String.eqb _ _); simpl;
    rewrite bind_snd, statements_app, logIf_statements; reflexivity.
Qed.

Lemma checkColumns_statements (rowCount : Z) (values : list value) :
  forall st,
    statements (snd (Engine.checkColumns render verbose search replace rowCount columns
                       columnsList values st)) = [].
Proof.
  induction columns as [|col rest IH]; intros st; [reflexivity|].
  cbn [Engine.checkColumns]. rewrite bind_snd, statements_app, IH, findColumn_lookup.
  destruct (lookup col columnsList values);
    [now rewrite checkValue_statements | reflexivity].
Qed.

(** The statements of a row are its UPDATEs. *)
Lemma processRow_statements (values : list value) (total rowCount : Z) :
  statements (snd (Engine.processRow render verbose db table search replace columns
                     columnsList values total rowCount))
  = updatesOf (snd (Engine.processRow render verbose db table search replace columns
                      columnsList values total rowCount)).
Proof.
  unfold Engine.processRow. rewrite !bind_snd, statements_app, updatesOf_app.
  rewrite checkColumns_statements, checkColumns_trace.
  destruct (Engine.hasChanges _); [|reflexivity].
  rewrite !bind_snd, updateRow_cases.
  destruct (nonNull columnsList values); reflexivity.
Qed.

(** The statements of a scan are its UPDATEs. *)
Lemma scanRows_statements (rows : list (result (list value))) :
  forall total rowCount,
    statements (snd (Engine.scanRows render verbose db table search replace columns
                       columnsList rows total rowCount))
    = updatesOf (snd (Engine.scanRows render verbose db table search replace columns
                        columnsList rows total rowCount)).
Proof.
  induction rows as [|delivered rest IH]; intros total rowCount.
  - cbn [Engine.scanRows]. rewrite bind_snd, statements_app, updatesOf_app.
    now rewrite logIf_statements, logIf_updates.
  - rewrite scanRows_cons.
    destruct (Scan (List.length columnsList) delivered) as [values|e]; [|reflexivity].
    rewrite bind_snd, statements_app, updatesOf_app, processRow_statements.
    destruct (snd (fst (Engine.processRow _ _ _ _ _ _ _ _ _ _ _))); [reflexivity|].
    now rewrite IH.
Qed.



End StatementFacts.

(** X3: the statements [processTable] sends are, in this order, the DESCRIBE
    of the table, then, if a text column was found, the SELECT of the table,
    then UPDATEs only; it sends nothing else, whatever the server answers. *)
Theorem X3_processTable_statement_order
    (render : value -> string) (verbose : bool) (db : DB)
    (table search replace : string) :
  let sent := statements (snd (Engine.processTable render verbose db table search replace)) in
  sent = [EvQuery ("DESCRIBE " ++ table)]
  \/ exists ups,
       sent = EvQuery ("DESCRIBE " ++ table) :: EvQuery ("SELECT * FROM " ++ table) :: ups
       /\ forallb isExec ups = true
       /\ exists columns, fst (Engine.getTextColumns db table) = Ok columns
                          /\ columns <> [].
Proof.
  intros sent. unfold sent, Engine.processTable.
  rewrite bind_snd, statements_app.
  change (statements (snd (Engine.getTextColumns db table)))
    with [EvQuery ("DESCRIBE " ++ table)].
  destruct (fst (Engine.getTextColumns db table)) as [cols|e]; [|left; reflexivity].
  rewrite bind_snd, statements_app, logIf_statements. cbn [app].
  destruct cols as [|c cols]; [left; reflexivity|].
  cbn [List.length Nat.eqb]. right.
  rewrite bind_snd, statements_app. cbn [fst snd app statements filter isLog negb].
  assert (N : exists columns : list string, Ok (c :: cols) = Ok columns /\ columns <> []).
  { exists (c :: cols). split; [reflexivity | discriminate]. }
  destruct (QuerySelect db ("SELECT * FROM " ++ table)) as [rows|e];
    [|exists []; repeat split; exact N].
  destruct (Columns rows) as [cl|e]; [|exists []; repeat split; exact N].
  fold (statements (snd (Engine.scanRows render verbose db table search replace
                           (c :: cols) cl (Delivered rows) 0 0))).
  rewrite scanRows_statements. eexists. split; [reflexivity|]. split; [|exact N].
  unfold updatesOf. apply forallb_forall. intros x I.
  now apply filter_In in I.
Qed.


(* ------------------------------------------------------------------ *)
(** * When a column changes *)

Lemma lookup_In (col : string) (columnsList : list string) (values : list value)
    (v : value) :
  lookup col columnsList values = Some v -> In v values.
Proof.
  revert values. induction columnsList as [|c cl IH]; intros [|w vs]; simpl;
    try discriminate.
  destruct (String.eqb c col); [intros [= ->]; now left | right; eauto].
Qed.

Lemma changedValue_occurs (render : value -> string) (search replace : string)
    (v : value) :
  search <> "" ->
  (changedValue render search replace v = true
   <-> isNil v = false /\ Contains (render v) search = true /\ search <> replace).
Proof.
  intros ne. unfold changedValue, newValue.
  rewrite andb_true_iff, !negb_true_iff, String.eqb_neq.
  pose proof (ReplaceAll_fixed (render v) search replace ne) as F.
  split.
  - intros [N C]. split; [exact N|].
    destruct (Contains (render v) search) eqn:O.
    + split; [reflexivity|]. intros E. apply C, F. now right.
    + elim C. apply F. now left.
  - intros (N & O & D). split; [exact N|]. intros E.
    apply F in E as [E|E]; [congruence | contradiction].
Qed.

Lemma changed_occurs (render : value -> string) (search replace : string)
    (columnsList : list string) (values : list value) (col : string) :
  search <> "" ->
  (changed render search replace columnsList values col = true
   <-> exists v, lookup col columnsList values = Some v
                 /\ isNil v = false
                 /\ Contains (render v) search = true
                 /\ search <> replace).
Proof.
  intros ne. unfold changed. destruct (lookup col columnsList values) as [v|].
  - rewrite (changedValue_occurs render search replace v ne). split.
    + intros H. now exists v.
    + intros (w & [= <-] & H). exact H.
  - split; [discriminate | intros (w & [=] & _)].
Qed.

(** X5: with a non-empty search literal, a text column of a row is changed
    (assigned in the UPDATE and counted) exactly when the row has a column
    of that name whose value, at the first such column, is not null and
    renders to a string in which the search literal occurs, and the replace
    literal is not the search literal itself. *)
Theorem X5_changed_iff_search_occurs
    (render : value -> string) (search replace : string)
    (columnsList : list string) (values : list value) (col : string) :
  search <> "" ->
  (changed render search replace columnsList values col = true
   <-> exists v, lookup col columnsList values = Some v
                 /\ isNil v = false
                 /\ Contains (render v) search = true
                 /\ search <> replace)
  /\ forall verbose rowCount st,
       fst (Engine.findColumn render verbose search replace rowCount col
              columnsList values st)
       = if changed render search replace columnsList values col
         then record render search replace col
                     (match lookup col columnsList values with
                      | Some v => v
                      | None => VNil
                      end) st
         else st.
Proof.
  intros ne. split.
  - now apply changed_occurs.
  - intros verbose rowCount st. rewrite findColumn_lookup. unfold changed.
    destruct (lookup col columnsList values) as [v|]; [|reflexivity].
    apply checkValue_state.
Qed.

Lemma X5_witness :
  "old" <> ""
  /\ changed Part000.convertToString "old" "new" ["id"; "bio"]
             [VBytes "1"; VBytes "an old one"] "bio" = true.
Proof.
  assert (ne : "old" <> "") by discriminate.
  split; [exact ne|].
  apply (proj1 (X5_changed_iff_search_occurs Part000.convertToString "old" "new"
                  ["id"; "bio"] [VBytes "1"; VBytes "an old one"] "bio" ne)).
  exists (VBytes "an old one"). repeat split. discriminate.
Defined.

(* ------------------------------------------------------------------ *)
(** * The count of a table that is scanned to its end *)

Lemma bump_add (a b : nat) (total : Z) : bump (a + b) total = bump b (bump a total).
Proof. unfold bump. rewrite Nat.add_comm. apply Nat.iter_add. Qed.

Lemma Scan_delivered (n : nat) (delivered : result (list value)) (values : list value) :
  Scan n delivered = Ok values ->
  delivered = Ok values /\ List.length values = n.
Proof.
  unfold Scan. destruct delivered as [vs|e]; [|discriminate].
  destruct (List.length vs =? n)%nat eqn:L; [|discriminate].
  intros [= ->]. split; [reflexivity | now apply Nat.eqb_eq].
Qed.

Section CountFacts.

Variable render : value -> string.
Variable verbose : bool.
Variable db : DB.
Variables table search replace : string.
Variables columns columnsList : list string.

Let scan := Engine.scanRows render verbose db table search replace columns columnsList.

(** A scan that ends without error returns the counter moved up once per
    changed text column of its rows. *)
Lemma scanRows_total (rows : list (result (list value))) :
  forall total rowCount,
    snd (fst (scan rows total rowCount)) = None ->
    fst (fst (scan rows total rowCount))
    = bump (changedCells render search replace columns columnsList rows) total.
Proof.
  induction rows as [|delivered rest IH]; intros total rowCount.
  - intros _. unfold scan. cbn [Engine.scanRows]. now rewrite bind_fst.
  - unfold scan. rewrite scanRows_cons. cbn [changedCells].
    destruct (Scan (List.length columnsList) delivered) as [values|e]; [|discriminate].
    rewrite !bind_fst.
    destruct (snd (fst (Engine.processRow _ _ _ _ _ _ _ _ _ _ _))); [discriminate|].
    intros H. fold scan in H |- *. rewrite (IH _ _ H), processRow_total.
    now rewrite bump_add.
Qed.

Lemma unchanged_cells (rows : list (result (list value))) :
  (forall d, In d rows -> rowChanged render search replace columns columnsList d = false) ->
  changedCells render search replace columns columnsList rows = 0
  /\ filter (rowChanged render search replace columns columnsList) rows = [].
Proof.
  induction rows as [|d rest IH]; intros U; [now split|].
  destruct IH as [C F]; [intros x I; apply U; now right|].
  pose proof (U d (or_introl eq_refl)) as R.
  cbn [changedCells filter]. rewrite C, F, R. split; [|reflexivity].
  unfold rowChanged in R.
  destruct (Scan (List.length columnsList) d); [|reflexivity].
  now rewrite (existsb_false_filter _ _ R).
Qed.

(** A scan none of whose rows has a changed text column sends no UPDATE
    and leaves the counter as it is, or returns zero with an error. *)
Lemma scanRows_unchanged (rows : list (result (list value))) (total rowCount : Z) :
  (forall d, In d rows -> rowChanged render search replace columns columnsList d = false) ->
  updatesOf (snd (scan rows total rowCount)) = []
  /\ (fst (fst (scan rows total rowCount)) = total
      \/ fst (fst (scan rows total rowCount)) = 0%Z).
Proof.
  intros U. destruct (unchanged_cells rows U) as [C F]. split.
  - pose proof (scanRows_updates_le render verbose db table search replace columns
                  columnsList rows total rowCount) as L.
    rewrite F in L. fold scan in L.
    destruct (updatesOf (snd (scan rows total rowCount))); [reflexivity|].
    simpl in L. lia.
  - destruct (snd (fst (scan rows total rowCount))) as [e|] eqn:E.
    + right. now apply (scanRows_error_zero render verbose db table search replace
                          columns columnsList rows total rowCount e).
    + left. unfold scan in *. rewrite scanRows_total by exact E. now rewrite C.
Qed.

End CountFacts.

(** X6: when [processTable] scans a table to its end without error, the
    count it returns is the number of changed text columns over all the
    rows, and the number of UPDATEs it has sent is the number of rows with a
    changed text column (the count stated for Go's 64-bit int within its
    range). *)
Theorem X6_count_of_a_finished_table
    (render : value -> string) (verbose : bool) (db : DB)
    (table search replace : string) (columns columnsList : list string)
    (rows : Rows) :
  fst (Engine.getTextColumns db table) = Ok columns ->
  columns <> [] ->
  QuerySelect db ("SELECT * FROM " ++ table) = Ok rows ->
  Columns rows = Ok columnsList ->
  snd (fst (Engine.processTable render verbose db table search replace)) = None ->
  (Z.of_nat (changedCells render search replace columns columnsList (Delivered rows))
   <= maxInt)%Z ->
  fst (fst (Engine.processTable render verbose db table search replace))
  = Z.of_nat (changedCells render search replace columns columnsList (Delivered rows))
  /\ List.length (updatesOf (snd (Engine.processTable render verbose db table search
                                    replace)))
     = List.length (filter (rowChanged render search replace columns columnsList)
                           (Delivered rows)).
Proof.
  intros G N Q C. unfold Engine.processTable.
  rewrite !bind_fst, !bind_snd, G, !bind_fst, !bind_snd.
  destruct columns as [|c cols]; [now elim N|]. cbn [List.length Nat.eqb].
  rewrite !bind_fst, !bind_snd, Q, C. cbn [fst snd].
  intros E B. rewrite !updatesOf_app, logIf_updates. cbn [updatesOf filter isExec app].
  change (filter isExec ?t) with (updatesOf t).
  assert (S : updatesOf (snd (Engine.getTextColumns db table)) = []) by reflexivity.
  rewrite S. cbn [app]. split.
  - rewrite scanRows_total by exact E. rewrite bump_small; lia.
  - now apply scanRows_updates_eq.
Qed.

Lemma X6_witness :
  fst (Engine.getTextColumns usersDb "users") = Ok ["bio"]
  /\ fst (fst (Engine.processTable Part000.convertToString true usersDb "users"
                 "old.site.com" "new.site.com")) = 1%Z.
Proof.
  split; [reflexivity|].
  refine (proj1 (X6_count_of_a_finished_table Part000.convertToString true usersDb
                   "users" "old.site.com" "new.site.com" ["bio"] ["id"; "bio"]
                   {| Columns := Ok ["id"; "bio"];
                      Delivered := [Ok [VBytes "1"; VBytes "visit old.site.com now"];
                                    Ok [VBytes "2"; VNil]] |}
                   eq_refl _ eq_refl eq_refl eq_refl _)).
  - discriminate.
  - vm_compute. discriminate.
Defined.

(* ------------------------------------------------------------------ *)
(** * Tables in which nothing changes *)

Lemma processTable_unchanged
    (render : value -> string) (verbose : bool) (db : DB)
    (table search replace : string) :
  (forall rows columns columnsList d,
      QuerySelect db ("SELECT * FROM " ++ table) = Ok rows ->
      In d (Delivered rows) ->
      rowChanged render search replace columns columnsList d = false) ->
  updatesOf (snd (Engine.processTable render verbose db table search replace)) = []
  /\ fst (fst (Engine.processTable render verbose db table search replace)) = 0%Z.
Proof.
  intros U. unfold Engine.processTable.
  rewrite !bind_fst, !bind_snd, updatesOf_app.
  assert (S : updatesOf (snd (Engine.getTextColumns db table)) = []) by reflexivity.
  rewrite S. cbn [app].
  destruct (fst (Engine.getTextColumns db table)) as [cols|e]; [|now split].
  rewrite !bind_fst, !bind_snd, updatesOf_app, logIf_updates. cbn [app].
  destruct (List.length cols =? 0)%nat; [now split|].
  rewrite !bind_fst, !bind_snd. cbn [fst snd app updatesOf filter isExec].
  destruct (QuerySelect db ("SELECT * FROM " ++ table)) as [rows|e] eqn:Q; [|now split].
  destruct (Columns rows) as [cl|e]; [|now split].
  change (filter isExec ?t) with (updatesOf t).
  destruct (scanRows_unchanged render verbose db table search replace cols cl
              (Delivered rows) 0 0) as [A [B|B]];
    [intros d I; now apply (U rows) | now split | now split].
Qed.

Lemma changed_same (render : value -> string) (search : string)
    (columnsList : list string) (values : list value) (col : string) :
  changed render search search columnsList values col = false.
Proof.
  unfold changed, changedValue, newValue.
  destruct (lookup col columnsList values) as [v|]; [|reflexivity].
  rewrite ReplaceAll_same, String.eqb_refl. apply andb_false_r.
Qed.

Lemma existsb_none {A : Type} (f : A -> bool) (l : list A) :
  (forall a, In a l -> f a = false) -> existsb f l = false.
Proof.
  induction l as [|a l IH]; intros H; [reflexivity|].
  simpl. rewrite (H a) by now left. apply IH. intros b I. apply H. now right.
Qed.

(** X7: with a non-empty search literal, a table in none of whose values
    the search literal occurs (as the values are rendered) gets no UPDATE,
    and the count returned for it is zero, whether the scan ends well or
    not. *)
Theorem X7_no_occurrence_no_update
    (render : value -> string) (verbose : bool) (db : DB)
    (table search replace : string) :
  search <> "" ->
  (forall rows vs v,
      QuerySelect db ("SELECT * FROM " ++ table) = Ok rows ->
      In (Ok vs) (Delivered rows) -> In v vs ->
      Contains (render v) search = false) ->
  updatesOf (snd (Engine.processTable render verbose db table search replace)) = []
  /\ fst (fst (Engine.processTable render verbose db table search replace)) = 0%Z.
Proof.
  intros ne A. apply processTable_unchanged.
  intros rows columns columnsList d Q I. unfold rowChanged.
  destruct (Scan (List.length columnsList) d) as [values|e] eqn:S; [|reflexivity].
  apply Scan_delivered in S as [-> _].
  apply existsb_none. intros col _.
  destruct (changed render search replace columnsList values col) eqn:C; [|reflexivity].
  apply (changed_occurs render search replace columnsList values col ne)
    in C as (v & L & _ & O & _).
  rewrite (A rows values v Q I (lookup_In _ _ _ _ L)) in O. discriminate.
Qed.

Lemma X7_witness :
  "zzz" <> ""
  /\ (forall rows vs v,
         QuerySelect usersDb ("SELECT * FROM " ++ "users") = Ok rows ->
         In (Ok vs) (Delivered rows) -> In v vs ->
         Contains (Part000.convertToString v) "zzz" = false)
  /\ updatesOf (snd (Engine.processTable Part000.convertToString true usersDb "users"
                       "zzz" "new")) = [].
Proof.
  assert (ne : "zzz" <> "") by discriminate.
  assert (A : forall rows vs v,
             QuerySelect usersDb ("SELECT * FROM " ++ "users") = Ok rows ->
             In (Ok vs) (Delivered rows) -> In v vs ->
             Contains (Part000.convertToString v) "zzz" = false).
  { intros rows vs v Q I J. injection Q as <-. cbn [Delivered] in I.
    destruct I as [E|[E|[]]]; injection E as <-;
      destruct J as [<-|[<-|[]]]; reflexivity. }
  split; [exact ne|]. split; [exact A|].
  exact (proj1 (X7_no_occurrence_no_update Part000.convertToString true usersDb
                  "users" "zzz" "new" ne A)).
Defined.

(** X8: when the replace literal is the search literal, no table gets an
    UPDATE and every count is zero: [processTable] only reads. *)
Theorem X8_same_literal_changes_nothing
    (render : value -> string) (verbose : bool) (db : DB) (table search : string) :
  updatesOf (snd (Engine.processTable render verbose db table search search)) = []
  /\ fst (fst (Engine.processTable render verbose db table search search)) = 0%Z.
Proof.
  apply processTable_unchanged.
  intros rows columns columnsList d _ _. unfold rowChanged.
  destruct (Scan (List.length columnsList) d) as [values|e]; [|reflexivity].
  apply existsb_none. intros col _. apply changed_same.
Qed.

(* ------------------------------------------------------------------ *)
(** * The length of a new value *)

Lemma insertAtRunes_grows (s new : string) :
  forall k, String.length s <= String.length (insertAtRunes k s new).
Proof.
  induction s as [|c s IH]; intros k; [simpl; lia|].
  cbn [insertAtRunes]. destruct k as [|k].
  - rewrite length_append. cbn [String.length].
    specialize (IH (runeWidth (String c s) - 1)). lia.
  - cbn [String.length]. specialize (IH k). lia.
Qed.

(** X9: the value written for a changed column is never longer than the
    original when the replace literal is not longer than the search literal,
    never shorter when it is not shorter, and of the same length when the
    two literals have the same length. *)
Theorem X9_new_value_length
    (render : value -> string) (search replace : string) (v : value) :
  (String.length replace <= String.length search ->
   String.length (newValue render search replace v) <= String.length (render v))
  /\ (String.length search <= String.length replace ->
      String.length (render v) <= String.length (newValue render search replace v))
  /\ (String.length search = String.length replace ->
      String.length (newValue render search replace v) = String.length (render v)).
Proof.
  assert (S : String.length replace <= String.length search ->
              String.length (newValue render search replace v)
              <= String.length (render v)).
  { intros L. unfold newValue, ReplaceAll.
    destruct (String.eqb_spec search replace) as [|d]; [lia|].
    destruct search as [|c search'] eqn:E.
    - destruct replace; [now elim d | simpl in L; lia].
    - rewrite <- E in *.
      assert (ne : search <> "") by (rewrite E; discriminate).
      pose proof (replaceFrom_shrinks search replace ne (render v) L 0). lia. }
  assert (G : String.length search <= String.length replace ->
              String.length (render v)
              <= String.length (newValue render search replace v)).
  { intros L. unfold newValue, ReplaceAll.
    destruct (String.eqb_spec search replace) as [|d]; [lia|].
    destruct search as [|c search'] eqn:E.
    - rewrite length_append. pose proof (insertAtRunes_grows (render v) replace 0). lia.
    - rewrite <- E in *.
      assert (ne : search <> "") by (rewrite E; discriminate).
      pose proof (replaceFrom_grows search replace ne (render v) L 0). lia. }
  split; [exact S|]. split; [exact G|].
  intros E. apply Nat.le_antisymm; [apply S | apply G]; lia.
Qed.

(* ------------------------------------------------------------------ *)
(** * The verbose flag *)

Section VerboseFacts.

Variable render : value -> string.
Variable db : DB.
Variables table search replace : string.
Variables columns columnsList : list string.

Lemma processRow_verbose (values : list value) (total rowCount : Z) (v1 v2 : bool) :
  fst (Engine.processRow render v1 db table search replace columns columnsList values
         total rowCount)
  = fst (Engine.processRow render v2 db table search replace columns columnsList values
           total rowCount)
  /\ statements (snd (Engine.processRow render v1 db table search replace columns
                        columnsList values total rowCount))
     = statements (snd (Engine.processRow render v2 db table search replace columns
                          columnsList values total rowCount)).
Proof.
  split.
  - rewrite (surjective_pairing (fst (Engine.processRow render v1 _ _ _ _ _ _ _ _ _))).
    rewrite (surjective_pairing (fst (Engine.processRow render v2 _ _ _ _ _ _ _ _ _))).
    now rewrite !processRow_total, !processRow_error, !processRow_updates.
  - now rewrite !processRow_statements, !processRow_updates.
Qed.

Lemma scanRows_verbose (rows : list (result (list value))) (v1 v2 : bool) :
  forall total rowCount,
    fst (Engine.scanRows render v1 db table search replace columns columnsList rows
           total rowCount)
    = fst (Engine.scanRows render v2 db table search replace columns columnsList rows
             total rowCount)
    /\ statements (snd (Engine.scanRows render v1 db table search replace columns
                          columnsList rows total rowCount))
       = statements (snd (Engine.scanRows render v2 db table search replace columns
                            columnsList rows total rowCount)).
Proof.
  induction rows as [|delivered rest IH]; intros total rowCount.
  - cbn [Engine.scanRows]. rewrite !bind_fst, !bind_snd, !statements_app.
    now rewrite !logIf_statements.
  - rewrite !scanRows_cons.
    destruct (Scan (List.length columnsList) delivered) as [values|e]; [|now split].
    destruct (processRow_verbose values total rowCount v1 v2) as [F S].
    rewrite !bind_fst, !bind_snd, !statements_app, F, S.
    destruct (snd (fst (Engine.processRow render v2 _ _ _ _ _ _ _ _ _)));
      [now split|].
    destruct (IH (fst (fst (Engine.processRow render v2 db table search replace columns
                              columnsList values total rowCount)))
                 (wrapInt (rowCount + 1))) as [F' S'].
    now rewrite F', S'.
Qed.

End VerboseFacts.

Lemma processTable_verbose (render : value -> string) (db : DB)
    (table search replace : string) (v1 v2 : bool) :
  fst (Engine.processTable render v1 db table search replace)
  = fst (Engine.processTable render v2 db table search replace)
  /\ statements (snd (Engine.processTable render v1 db table search replace))
     = statements (snd (Engine.processTable render v2 db table search replace)).
Proof.
  unfold Engine.processTable. rewrite !bind_fst, !bind_snd, !statements_app.
  destruct (fst (Engine.getTextColumns db table)) as [cols|e]; [|now split].
  rewrite !bind_fst, !bind_snd, !statements_app, !logIf_statements.
  destruct (List.length cols =? 0)%nat; [now split|].
  rewrite !bind_fst, !bind_snd, !statements_app. cbn [fst snd].
  destruct (QuerySelect db _) as [rows|e]; [|now split].
  destruct (Columns rows) as [cl|e]; [|now split].
  destruct (scanRows_verbose render db table search replace cols cl (Delivered rows)
              v1 v2 0 0) as [F S].
  now rewrite F, S.
Qed.

Lemma reportTable_verbose (table : string) (res : Z * option error) (total : Z)
    (v1 v2 : bool) :
  fst (Engine.reportTable v1 table res total) = fst (Engine.reportTable v2 table res total)
  /\ statements (snd (Engine.reportTable v1 table res total)) = []
  /\ statements (snd (Engine.reportTable v2 table res total)) = [].
Proof.
  destruct res as [n [e|]]; cbn [Engine.reportTable].
  - repeat split.
  - rewrite !bind_fst, !bind_snd, !statements_app, !logIf_statements. repeat split.
Qed.

Lemma processTables_verbose (render : value -> string) (db : DB)
    (tables : list string) (search replace : string) (v1 v2 : bool) :
  forall total,
    fst (Engine.processTables render v1 db tables search replace total)
    = fst (Engine.processTables render v2 db tables search replace total)
    /\ statements (snd (Engine.processTables render v1 db tables search replace total))
       = statements (snd (Engine.processTables render v2 db tables search replace total)).
Proof.
  induction tables as [|table rest IH]; intros total; [now split|].
  cbn [Engine.processTables].
  destruct (processTable_verbose render db table search replace v1 v2) as [F S].
  rewrite !bind_fst, !bind_snd, !statements_app, F, S.
  destruct (reportTable_verbose table
              (fst (Engine.processTable render v2 db table search replace)) total v1 v2)
    as (R & L1 & L2).
  rewrite R, L1, L2.
  destruct (IH (fst (Engine.reportTable v2 table
                       (fst (Engine.processTable render v2 db table search replace))
                       total))) as [F' S'].
  now rewrite F', S'.
Qed.

(** X10: the verbose flag only adds log lines.  With the flag on or off,
    [processTable] returns the same count and error and sends the same
    statements in the same order, and a whole run ends the same way having
    sent the same statements. *)
Theorem X10_verbose_only_logs
    (db : DB) (table : string) (open : string -> result DB)
    (host : string) (port : Z) (user password database search replace : string) :
  let config := fun verbose =>
    {| Part000.Host := host; Part000.Port := port; Part000.User := user;
       Part000.Password := password; Part000.Database := database;
       Part000.Search := search; Part000.Replace := replace;
       Part000.Verbose := verbose |} in
  fst (Part000.processTable db table search replace true)
  = fst (Part000.processTable db table search replace false)
  /\ statements (snd (Part000.processTable db table search replace true))
     = statements (snd (Part000.processTable db table search replace false))
  /\ fst (Part000.main open (config true)) = fst (Part000.main open (config false))
  /\ statements (snd (Part000.main open (config true)))
     = statements (snd (Part000.main open (config false))).
Proof.
  intros config.
  destruct (processTable_verbose Part000.convertToString db table search replace
              true false) as [F S].
  split; [exact F|]. split; [exact S|].
  unfold Part000.main, config, Engine.main.
  cbn [Part000.Host Part000.Port Part000.User Part000.Password Part000.Database
       Part000.Search Part000.Replace Part000.Verbose].
  destruct (String.eqb user "" || String.eqb database "" || String.eqb search "");
    [now split|].
  destruct (open _) as [db'|e]; [|now split].
  rewrite !bind_fst, !bind_snd, !statements_app.
  destruct (fst (Engine.getTables db')) as [tables|e]; [|now split].
  destruct (processTables_verbose Part000.convertToString db' tables search replace
              true false 0%Z) as [F' S'].
  repeat rewrite ?bind_fst, ?bind_snd, ?statements_app, ?logIf_statements.
  cbn [logPrintf ret fst snd statements filter isLog negb app].
  rewrite S'. now split.
Qed.

(* ------------------------------------------------------------------ *)
(** * The run over the tables *)

Lemma describe_statements (t : list event) :
  filter isDescribe t = filter isDescribe (statements t).
Proof.
  induction t as [|e t IH]; [reflexivity|].
  destruct e; cbn [statements filter isLog negb isDescribe]; fold (statements t);
    rewrite ?IH; reflexivity.
Qed.

Lemma describe_updates (t : list event) : filter isDescribe (updatesOf t) = [].
Proof.
  induction t as [|e t IH]; [reflexivity|].
  destruct e; cbn [updatesOf filter isExec isDescribe]; exact IH.
Qed.

Lemma describe_is (table : string) :
  isDescribe (EvQuery ("DESCRIBE " ++ table)) = true.
Proof. apply (prefix_append "DESCRIBE " table). Qed.

Lemma processTable_describe (render : value -> string) (verbose : bool) (db : DB)
    (table search replace : string) :
  filter isDescribe (snd (Engine.processTable render verbose db table search replace))
  = [EvQuery ("DESCRIBE " ++ table)].
Proof.
  rewrite describe_statements. unfold Engine.processTable.
  rewrite bind_snd, statements_app.
  change (statements (snd (Engine.getTextColumns db table)))
    with [EvQuery ("DESCRIBE " ++ table)].
  rewrite filter_app. cbn [filter]. rewrite describe_is.
  cbn [app]. f_equal.
  destruct (fst (Engine.getTextColumns db table)) as [cols|e]; [|reflexivity].
  rewrite bind_snd, statements_app, logIf_statements. cbn [app].
  destruct (List.length cols =? 0)%nat; [reflexivity|].
  rewrite bind_snd, statements_app. cbn [fst snd app statements filter isLog negb].
  cbn [isDescribe String.prefix]. cbn.
  destruct (QuerySelect db _) as [rows|e]; [|reflexivity].
  destruct (Columns rows) as [cl|e]; [|reflexivity].
  fold (statements (snd (Engine.scanRows render verbose db table search replace
                           cols cl (Delivered rows) 0 0))).
  rewrite scanRows_statements. apply describe_updates.
Qed.

Lemma processTables_describe (render : value -> string) (verbose : bool) (db : DB)
    (tables : list string) (search replace : string) :
  forall total,
    filter isDescribe (snd (Engine.processTables render verbose db tables search
                              replace total))
    = map (fun table => EvQuery ("DESCRIBE " ++ table)) tables.
Proof.
  induction tables as [|table rest IH]; intros total; [reflexivity|].
  cbn [Engine.processTables map].
  rewrite bind_snd, filter_app, processTable_describe, bind_snd, filter_app, IH.
  rewrite (describe_statements (snd (Engine.reportTable _ _ _ _))).
  destruct (reportTable_verbose table
              (fst (Engine.processTable render verbose db table search replace))
              total verbose verbose) as (_ & L & _).
  now rewrite L.
Qed.

Lemma required_flags (user database search : string) :
  user <> "" -> database <> "" -> search <> "" ->
  String.eqb user "" || String.eqb database "" || String.eqb search "" = false.
Proof.
  intros U D S. apply String.eqb_neq in U, D, S. now rewrite U, D, S.
Qed.

(** X11: a run with its required flags, an opened handle and a table list
    that decodes ends normally and examines every listed table once, in the
    order of the list, whatever happens to the tables before it: the
    DESCRIBE statements of the run are those of the tables, one each, in
    order.  So does the loop over the tables from any total. *)
Theorem X11_every_table_examined
    (render : value -> string) (verbose : bool) (open : string -> result DB)
    (db : DB) (names : list string)
    (host : string) (port : Z) (user password database search replace : string) :
  user <> "" -> database <> "" -> search <> "" ->
  open (dsnOf host port user password database) = Ok db ->
  QueryTables db "SHOW TABLES" = Ok (map Ok names) ->
  let run := Engine.main render verbose open host port user password database
               search replace in
  fst run = Engine.ExitOK
  /\ filter isDescribe (snd run) = map (fun table => EvQuery ("DESCRIBE " ++ table)) names
  /\ forall total,
       filter isDescribe (snd (Engine.processTables render verbose db names search
                                 replace total))
       = map (fun table => EvQuery ("DESCRIBE " ++ table)) names.
Proof.
  intros U D S O Q run. split; [|split; [|apply processTables_describe]].
  - unfold run, Engine.main. rewrite (required_flags _ _ _ U D S).
    fold (dsnOf host port user password database). rewrite O.
    unfold Engine.getTables. rewrite Q.
    rewrite <- (app_nil_r (map Ok names)), scanTables_decoded.
    cbn [Engine.scanTables app]. rewrite bind_fst. cbn [fst].
    now rewrite !bind_fst.
  - unfold run, Engine.main. rewrite (required_flags _ _ _ U D S).
    fold (dsnOf host port user password database). rewrite O.
    unfold Engine.getTables. rewrite Q.
    rewrite <- (app_nil_r (map Ok names)), scanTables_decoded.
    cbn [Engine.scanTables app]. rewrite bind_snd. cbn [fst snd].
    rewrite !bind_snd, !filter_app, processTables_describe.
    rewrite (describe_statements (snd (logIf _ _))), logIf_statements.
    cbn [logPrintf ret snd filter isDescribe app]. now rewrite app_nil_r.
Qed.

Lemma X11_witness :
  "root" <> "" /\ "app" <> "" /\ "old" <> ""
  /\ filter isDescribe (snd (Part000.main (fun _ => Ok refusingDb)
                                (part000Config "old" "new" true)))
     = [EvQuery "DESCRIBE t1"; EvQuery "DESCRIBE t2"].
Proof.
  assert (U : "root" <> "") by discriminate.
  assert (D : "app" <> "") by discriminate.
  assert (S : "old" <> "") by discriminate.
  split; [exact U|]. split; [exact D|]. split; [exact S|].
  exact (proj1 (proj2 (X11_every_table_examined Part000.convertToString true
                         (fun _ => Ok refusingDb) refusingDb ["t1"; "t2"]
                         "localhost" 3306 "root" "" "app" "old" "new"
                         U D S eq_refl eq_refl))).
Defined.

(** What [main] adds to the total for one table. *)
Lemma reportTable_counted (verbose : bool) (table : string) (res : Z * option error)
    (total : Z) :
  (0 <= total)%Z -> (0 <= counted res)%Z -> (total + counted res <= maxInt)%Z ->
  fst (Engine.reportTable verbose table res total) = (total + counted res)%Z.
Proof.
  destruct res as [n [e|]]; unfold counted; cbn [Engine.reportTable fst snd].
  - intros _ _ _. rewrite bind_fst. cbn [ret fst]. lia.
  - intros T N B. rewrite bind_fst. cbn [ret fst].
    apply wrapInt_small. unfold maxInt in *. lia.
Qed.

Lemma tablesTotal_nonneg (render : value -> string) (verbose : bool) (db : DB)
    (search replace : string) (tables : list string) :
  (forall table, In table tables ->
     (0 <= counted (fst (Engine.processTable render verbose db table search replace)))%Z) ->
  (0 <= tablesTotal render verbose db search replace tables)%Z.
Proof.
  induction tables as [|table rest IH]; intros N; cbn [tablesTotal]; [lia|].
  specialize (N table (or_introl eq_refl)) as N0.
  assert (0 <= tablesTotal render verbose db search replace rest)%Z
    by (apply IH; intros t I; apply N; now right).
  lia.
Qed.

(** The total after the loop over the tables: the total before it, and for
    every table processed without error the count it returned. *)
Lemma processTables_total (render : value -> string) (verbose : bool) (db : DB)
    (search replace : string) (tables : list string) :
  (forall table, In table tables ->
     (0 <= counted (fst (Engine.processTable render verbose db table search replace)))%Z) ->
  forall total,
    (0 <= total)%Z ->
    (total + tablesTotal render verbose db search replace tables <= maxInt)%Z ->
    fst (Engine.processTables render verbose db tables search replace total)
    = (total + tablesTotal render verbose db search replace tables)%Z.
Proof.
  induction tables as [|table rest IH]; intros N total T B.
  - cbn [Engine.processTables tablesTotal ret fst]. lia.
  - cbn [Engine.processTables tablesTotal] in *. rewrite !bind_fst.
    pose proof (N table (or_introl eq_refl)) as N0.
    assert (NR : forall t, In t rest ->
              (0 <= counted (fst (Engine.processTable render verbose db t search
                                    replace)))%Z)
      by (intros t I; apply N; now right).
    pose proof (tablesTotal_nonneg render verbose db search replace rest NR) as R0.
    rewrite reportTable_counted by lia.
    rewrite IH by (auto; lia). lia.
Qed.

(** The trace of a run that gets as far as the loop over the tables. *)
Lemma main_reaches_tables
    (render : value -> string) (verbose : bool) (open : string -> result DB)
    (db : DB) (tables : list string)
    (host : string) (port : Z) (user password database search replace : string) :
  user <> "" -> database <> "" -> search <> "" ->
  open (dsnOf host port user password database) = Ok db ->
  fst (Engine.getTables db) = Ok tables ->
  Engine.main render verbose open host port user password database search replace
  = (Engine.ExitOK,
     (EvQuery "SHOW TABLES"
      :: snd (logIf verbose ("Found " ++ showNat (List.length tables)
                             ++ " tables to process"))
      ++ snd (Engine.processTables render verbose db tables search replace 0)
      ++ [EvLog ("Total replacements: "
                 ++ showInt (fst (Engine.processTables render verbose db tables
                                    search replace 0)))])%list).
Proof.
  intros U D S O G. unfold Engine.main. rewrite (required_flags _ _ _ U D S).
  fold (dsnOf host port user password database). rewrite O.
  rewrite (surjective_pairing (Engine.getTables db)), G.
  change (snd (Engine.getTables db)) with [EvQuery "SHOW TABLES"].
  cbn [bind].
  destruct (logIf verbose _) as [[] t1].
  destruct (Engine.processTables render verbose db tables search replace 0) as [n t2].
  reflexivity.
Qed.

(** X12: a run ends normally exactly when the three required flags are not
    empty, the handle opens and the table list is read; no error of a table
    makes it end otherwise.  A run that ends normally sends SHOW TABLES,
    processes the tables, and logs as its last line the total the loop over
    the tables returns, which is the sum of the counts returned for the
    tables processed without error (within the range of a 64-bit int). *)
Theorem X12_exit_status
    (render : value -> string) (verbose : bool) (open : string -> result DB)
    (host : string) (port : Z) (user password database search replace : string) :
  let run := Engine.main render verbose open host port user password database
               search replace in
  (fst run = Engine.ExitOK
   <-> user <> "" /\ database <> "" /\ search <> ""
       /\ exists db tables,
            open (dsnOf host port user password database) = Ok db
            /\ fst (Engine.getTables db) = Ok tables)
  /\ (forall db tables,
        user <> "" -> database <> "" -> search <> "" ->
        open (dsnOf host port user password database) = Ok db ->
        fst (Engine.getTables db) = Ok tables ->
        snd run
        = (EvQuery "SHOW TABLES"
           :: snd (logIf verbose ("Found " ++ showNat (List.length tables)
                                  ++ " tables to process"))
           ++ snd (Engine.processTables render verbose db tables search replace 0)
           ++ [EvLog ("Total replacements: "
                      ++ showInt (fst (Engine.processTables render verbose db tables
                                         search replace 0)))])%list
        /\ ((forall table, In table tables ->
               (0 <= counted (fst (Engine.processTable render verbose db table search
                                     replace)))%Z) ->
            (tablesTotal render verbose db search replace tables <= maxInt)%Z ->
            fst (Engine.processTables render verbose db tables search replace 0)
            = tablesTotal render verbose db search replace tables)).
Proof.
  intros run. split.
  - unfold run, Engine.main.
    fold (dsnOf host port user password database).
    destruct (String.eqb_spec user "") as [->|U].
    { split; [discriminate | now intros (U & _)]. }
    destruct (String.eqb_spec database "") as [->|D].
    { split; [discriminate | now intros (_ & D & _)]. }
    destruct (String.eqb_spec search "") as [->|S].
    { split; [discriminate | now intros (_ & _ & S & _)]. }
    cbn [orb].
    destruct (open (dsnOf host port user password database)) as [db|e].
    2:{ split; [discriminate | intros (_ & _ & _ & db & t & [=] & _)]. }
    rewrite bind_fst.
    destruct (fst (Engine.getTables db)) as [tables|e] eqn:G.
    + split; [intros _ | now rewrite !bind_fst].
      repeat split; auto. now exists db, tables.
    + split; [discriminate|].
      intros (_ & _ & _ & db' & t & [= <-] & G'). congruence.
  - intros db tables U D S O G. split.
    + unfold run. now rewrite (main_reaches_tables render verbose open db tables).
    + intros N B.
      rewrite (processTables_total render verbose db search replace tables N 0%Z);
        lia.
Qed.

(** X13: a run that ends fatally has touched no table: besides its one log
    line it has sent nothing, or the SHOW TABLES only; no DESCRIBE, no
    SELECT, no UPDATE. *)
Theorem X13_fatal_before_any_table
    (render : value -> string) (verbose : bool) (open : string -> result DB)
    (host : string) (port : Z) (user password database search replace : string) :
  fst (Engine.main render verbose open host port user password database search
         replace) = Engine.ExitFatal ->
  exists line,
    snd (Engine.main render verbose open host port user password database search
           replace) = [EvLog line]
    \/ snd (Engine.main render verbose open host port user password database search
              replace) = [EvQuery "SHOW TABLES"; EvLog line].
Proof.
  unfold Engine.main.
  destruct (String.eqb user "" || String.eqb database "" || String.eqb search "").
  { intros _. eexists. left. reflexivity. }
  destruct (open _) as [db|e]; [|intros _; eexists; left; reflexivity].
  rewrite bind_fst, bind_snd.
  change (snd (Engine.getTables db)) with [EvQuery "SHOW TABLES"].
  destruct (fst (Engine.getTables db)) as [tables|e].
  - rewrite !bind_fst. discriminate.
  - intros _. eexists. right. reflexivity.
Qed.

Lemma X13_witness :
  fst (MainGo.main (fun _ => Ok downDb) (mainGoConfig "old" "new")) = Engine.ExitFatal
  /\ exists line,
       snd (MainGo.main (fun _ => Ok downDb) (mainGoConfig "old" "new")) = [EvLog line]
       \/ snd (MainGo.main (fun _ => Ok downDb) (mainGoConfig "old" "new"))
          = [EvQuery "SHOW TABLES"; EvLog line].
Proof.
  split; [reflexivity|].
  exact (X13_fatal_before_any_table MainGo.render false (fun _ => Ok downDb)
           "localhost" 3306 "root" "" "app" "old" "new" eq_refl).
Defined.

(* ------------------------------------------------------------------ *)
(** * main.go on values delivered as bytes *)

Lemma allBytes_append (p : ascii -> bool) (a b : string) :
  allBytes p (a ++ b) = allBytes p a && allBytes p b.
Proof.
  induction a as [|c a IH]; [reflexivity|].
  cbn [append allBytes]. now rewrite IH, andb_assoc.
Qed.

Lemma allBytes_digits (d : Decimal.uint) :
  allBytes listByte (NilEmpty.string_of_uint d) = true.
Proof. induction d; cbn [NilEmpty.string_of_uint allBytes]; auto. Qed.

Lemma allBytes_showNat (n : nat) : allBytes listByte (showNat n) = true.
Proof.
  unfold showNat, NilZero.string_of_uint.
  destruct (Nat.to_uint n) eqn:E; try reflexivity; rewrite <- E;
    apply allBytes_digits.
Qed.

Lemma allBytes_Join (l : list string) :
  (forall x, In x l -> allBytes listByte x = true) ->
  allBytes listByte (Join l " ") = true.
Proof.
  unfold Join. induction l as [|x l IH]; intros A; [reflexivity|].
  destruct l as [|y l]; [apply A; now left|].
  cbn [String.concat]. rewrite !allBytes_append, (A x) by now left.
  cbn [allBytes andb]. apply IH. intros z I. apply A. now right.
Qed.

Lemma allBytes_showBytes (b : string) : allBytes listByte (showBytes b) = true.
Proof.
  unfold showBytes. cbn [append allBytes]. rewrite allBytes_append.
  rewrite allBytes_Join; [reflexivity|].
  induction b as [|c b IH]; intros x I; [now elim I|].
  destruct I as [<-|I]; [apply allBytes_showNat | now apply IH].
Qed.

Lemma allBytes_Contains (p : ascii -> bool) (s x : string) :
  Contains s x = true -> allBytes p s = true -> allBytes p x = true.
Proof.
  intros C A. apply Contains_occurs in C as (a & b & ->).
  rewrite !allBytes_append in A.
  apply andb_true_iff in A as [_ A]. now apply andb_true_iff in A as [A _].
Qed.

Lemma bytes_unchanged (search replace b : string) :
  allBytes listByte search = false ->
  changedValue MainGo.render search replace (VBytes b) = false.
Proof.
  intros S.
  assert (ne : search <> "") by (intros ->; discriminate).
  destruct (changedValue MainGo.render search replace (VBytes b)) eqn:C;
    [|reflexivity].
  apply (changedValue_occurs MainGo.render search replace (VBytes b) ne)
    in C as (_ & O & _).
  apply (allBytes_Contains listByte) in O; [congruence|].
  apply allBytes_showBytes.
Qed.

(** X14: in main.go a value delivered as a byte sequence is rendered as the
    list of its bytes in decimal, so a search literal with any byte other
    than a digit, a space or a square bracket never occurs in it: on a table
    whose values are all null or byte sequences, main.go sends no UPDATE and
    counts nothing, whatever the values hold. *)
Theorem X14_mainGo_misses_bytes
    (db : DB) (table search replace : string) :
  allBytes listByte search = false ->
  (forall rows vs v,
      QuerySelect db ("SELECT * FROM " ++ table) = Ok rows ->
      In (Ok vs) (Delivered rows) -> In v vs ->
      v = VNil \/ exists b, v = VBytes b) ->
  (forall b, changedValue MainGo.render search replace (VBytes b) = false)
  /\ updatesOf (snd (MainGo.processTable db table search replace)) = []
  /\ fst (fst (MainGo.processTable db table search replace)) = 0%Z.
Proof.
  intros S A. split; [intros b; now apply bytes_unchanged|].
  apply processTable_unchanged.
  intros rows columns columnsList d Q I. unfold rowChanged.
  destruct (Scan (List.length columnsList) d) as [values|e] eqn:Sc; [|reflexivity].
  apply Scan_delivered in Sc as [-> _].
  apply existsb_none. intros col _. unfold changed.
  destruct (lookup col columnsList values) as [v|] eqn:L; [|reflexivity].
  destruct (A rows values v Q I (lookup_In _ _ _ _ L)) as [->|[b ->]];
    [reflexivity | now apply bytes_unchanged].
Qed.

Lemma X14_witness :
  allBytes listByte "foo" = false
  /\ (forall rows vs v,
         QuerySelect fooDb ("SELECT * FROM " ++ "t") = Ok rows ->
         In (Ok vs) (Delivered rows) -> In v vs ->
         v = VNil \/ exists b, v = VBytes b)
  /\ updatesOf (snd (MainGo.processTable fooDb "t" "foo" "bar")) = [].
Proof.
  assert (A : forall rows vs v,
             QuerySelect fooDb ("SELECT * FROM " ++ "t") = Ok rows ->
             In (Ok vs) (Delivered rows) -> In v vs ->
             v = VNil \/ exists b, v = VBytes b).
  { intros rows vs v Q I J. injection Q as <-. cbn [Delivered] in I.
    destruct I as [E|[]]. injection E as <-.
    destruct J as [<-|[]]. right. now exists "foo". }
  split; [reflexivity|]. split; [exact A|].
  exact (proj1 (proj2 (X14_mainGo_misses_bytes fooDb "t" "foo" "bar" eq_refl A))).
Defined.

(* ------------------------------------------------------------------ *)
(** * Columns are matched by name *)

Lemma lookup_combine (col : string) (columnsList : list string)
    (values : list value) (v : value) :
  NoDup (map fst (combine columnsList values)) ->
  (lookup col columnsList values = Some v <-> In (col, v) (combine columnsList values)).
Proof.
  revert values. induction columnsList as [|c cl IH]; intros [|w vs] N;
    cbn [lookup combine]; try (split; [discriminate | intros []]).
  cbn [map fst] in N. apply NoDup_cons_iff in N as [F N].
  destruct (String.eqb_spec c col) as [->|ne].
  - split.
    + intros [= ->]. now left.
    + intros [[= ->]|I]; [reflexivity|].
      elim F. apply in_map_iff. now exists (col, v).
  - rewrite (IH vs N). split; [now right|].
    intros [[= E _]|I]; [contradiction | exact I].
Qed.

Lemma filter_Permutation {A : Type} (f : A -> bool) (l l' : list A) :
  Permutation l l' -> Permutation (filter f l) (filter f l').
Proof.
  induction 1 as [|a l l' P IH|a b l|l l' l'' P IH P' IH']; cbn [filter].
  - constructor.
  - destruct (f a); [now constructor | exact IH].
  - destruct (f a), (f b); try apply Permutation_refl. apply perm_swap.
  - now apply Permutation_trans with (filter f l').
Qed.

Lemma lookup_permuted (columnsList columnsList' : list string)
    (values values' : list value) :
  NoDup (map fst (combine columnsList values)) ->
  Permutation (combine columnsList values) (combine columnsList' values') ->
  forall col, lookup col columnsList' values' = lookup col columnsList values.
Proof.
  intros N P col.
  assert (N' : NoDup (map fst (combine columnsList' values'))).
  { apply (Permutation_NoDup (Permutation_map fst P) N). }
  destruct (lookup col columnsList values) as [v|] eqn:E.
  - apply (lookup_combine _ _ _ _ N'). apply (Permutation_in _ P).
    now apply (lookup_combine _ _ _ _ N).
  - destruct (lookup col columnsList' values') as [v'|] eqn:E'; [|reflexivity].
    apply (lookup_combine _ _ _ _ N') in E'.
    apply (Permutation_in _ (Permutation_sym P)) in E'.
    apply (lookup_combine _ _ _ _ N) in E'. congruence.
Qed.

Lemma combine_map {A B C : Type} (f : A -> B) (g : A -> C) (l : list A) :
  combine (map f l) (map g l) = map (fun x => (f x, g x)) l.
Proof. induction l as [|x l IH]; [reflexivity|]. cbn [map combine]. now rewrite IH. Qed.

(** X15: the program finds the text columns in the row by name, not by
    position.  When the scan returns the columns of a row (with no name
    twice) in another order, the inner loop does the same for every text
    column, the pass over the text columns leaves the same accumulators
    (the same SET assignments and arguments, the same counter), the row
    counts the same and gets an UPDATE in the same cases, and the WHERE
    clause [updateRow] builds holds the same predicates with the same
    original values, in the new order. *)
Theorem X15_matched_by_name
    (render : value -> string) (verbose : bool) (db : DB)
    (table search replace : string) (rowCount total : Z)
    (columns columnsList columnsList' : list string) (values values' : list value) :
  NoDup (map fst (combine columnsList values)) ->
  Permutation (combine columnsList values) (combine columnsList' values') ->
  (forall col st,
      Engine.findColumn render verbose search replace rowCount col columnsList'
        values' st
      = Engine.findColumn render verbose search replace rowCount col columnsList
          values st)
  /\ (forall st,
        Engine.checkColumns render verbose search replace rowCount columns
          columnsList' values' st
        = Engine.checkColumns render verbose search replace rowCount columns
            columnsList values st)
  /\ fst (fst (Engine.processRow render verbose db table search replace columns
                 columnsList' values' total rowCount))
     = fst (fst (Engine.processRow render verbose db table search replace columns
                   columnsList values total rowCount))
  /\ List.length (updatesOf (snd (Engine.processRow render verbose db table search
                                    replace columns columnsList' values' total
                                    rowCount)))
     = List.length (updatesOf (snd (Engine.processRow render verbose db table search
                                      replace columns columnsList values total
                                      rowCount)))
  /\ Permutation
       (combine (fst (Engine.whereOf columnsList' values'))
                (snd (Engine.whereOf columnsList' values')))
       (combine (fst (Engine.whereOf columnsList values))
                (snd (Engine.whereOf columnsList values)))
  /\ setColumns render search replace columnsList' values' columns
     = setColumns render search replace columnsList values columns
  /\ map (newArg render search replace columnsList' values')
         (setColumns render search replace columnsList' values' columns)
     = map (newArg render search replace columnsList values)
           (setColumns render search replace columnsList values columns)
  /\ Permutation (nonNull columnsList' values') (nonNull columnsList values).
Proof.
  intros N P.
  pose proof (lookup_permuted columnsList columnsList' values values' N P) as L.
  assert (F : forall col st,
             Engine.findColumn render verbose search replace rowCount col columnsList'
               values' st
             = Engine.findColumn render verbose search replace rowCount col columnsList
                 values st).
  { intros col st. now rewrite !findColumn_lookup, L. }
  assert (C : forall st,
             Engine.checkColumns render verbose search replace rowCount columns
               columnsList' values' st
             = Engine.checkColumns render verbose search replace rowCount columns
                 columnsList values st).
  { induction columns as [|col rest IH]; intros st; [reflexivity|].
    cbn [Engine.checkColumns]. rewrite F. unfold bind.
    destruct (Engine.findColumn _ _ _ _ _ _ _ _ _) as [st' t]. now rewrite IH. }
  assert (S : setColumns render search replace columnsList' values' columns
              = setColumns render search replace columnsList values columns).
  { unfold setColumns. apply filter_ext. intros col. unfold changed. now rewrite L. }
  assert (E : existsb (changed render search replace columnsList' values') columns
              = existsb (changed render search replace columnsList values) columns).
  { clear C S. induction columns as [|col rest IH]; [reflexivity|].
    cbn [existsb]. rewrite IH. f_equal. unfold changed. now rewrite L. }
  assert (W : Permutation (nonNull columnsList' values') (nonNull columnsList values)).
  { unfold nonNull. apply filter_Permutation. now apply Permutation_sym. }
  split; [exact F|]. split; [exact C|]. split; [|split; [|split; [|split; [|split]]]].
  - rewrite !processRow_total. fold (setColumns render search replace columnsList'
                                       values' columns).
    fold (setColumns render search replace columnsList values columns).
    now rewrite S.
  - rewrite !processRow_updates, E.
    destruct (existsb (changed render search replace columnsList values) columns);
      reflexivity.
  - rewrite !whereOf_nonNull. cbn [fst snd]. rewrite !combine_map.
    now apply Permutation_map.
  - exact S.
  - rewrite S. apply map_ext. intros col. unfold newArg. now rewrite L.
  - exact W.
Qed.

Lemma X15_witness :
  NoDup (map fst (combine ["id"; "bio"] [VBytes "1"; VBytes "old"]))
  /\ Permutation (combine ["id"; "bio"] [VBytes "1"; VBytes "old"])
                 (combine ["bio"; "id"] [VBytes "old"; VBytes "1"])
  /\ Engine.checkColumns Part000.convertToString false "old" "new" 0 ["bio"]
       ["bio"; "id"] [VBytes "old"; VBytes "1"] (freshRow 0)
     = Engine.checkColumns Part000.convertToString false "old" "new" 0 ["bio"]
         ["id"; "bio"] [VBytes "1"; VBytes "old"] (freshRow 0).
Proof.
  assert (N : NoDup (map fst (combine ["id"; "bio"] [VBytes "1"; VBytes "old"]))).
  { repeat constructor; simpl; intuition discriminate. }
  assert (P : Permutation (combine ["id"; "bio"] [VBytes "1"; VBytes "old"])
                          (combine ["bio"; "id"] [VBytes "old"; VBytes "1"])).
  { apply perm_swap. }
  split; [exact N|]. split; [exact P|].
  exact (proj1 (proj2 (X15_matched_by_name Part000.convertToString false usersDb
                         "users" "old" "new" 0 0 ["bio"] ["id"; "bio"] ["bio"; "id"]
                         [VBytes "1"; VBytes "old"] [VBytes "old"; VBytes "1"] N P))
           (freshRow 0)).
Defined.

(* ------------------------------------------------------------------ *)
(** * Failures of the scan *)

(** X16: when a text column was found and the SELECT fails, or the column
    list of its result cannot be read, [processTable] returns that error
    with a count of zero, having sent the DESCRIBE and the SELECT and no
    UPDATE. *)
Theorem X16_scan_query_failure
    (render : value -> string) (verbose : bool) (db : DB)
    (table search replace : string) (columns : list string) (e : error) :
  fst (Engine.getTextColumns db table) = Ok columns ->
  columns <> [] ->
  (QuerySelect db ("SELECT * FROM " ++ table) = Err e
   \/ exists rows, QuerySelect db ("SELECT * FROM " ++ table) = Ok rows
                   /\ Columns rows = Err e) ->
  fst (Engine.processTable render verbose db table search replace) = (0%Z, Some e)
  /\ statements (snd (Engine.processTable render verbose db table search replace))
     = [EvQuery ("DESCRIBE " ++ table); EvQuery ("SELECT * FROM " ++ table)].
Proof.
  intros G N Q. unfold Engine.processTable.
  rewrite !bind_fst, !bind_snd, !statements_app, G.
  change (statements (snd (Engine.getTextColumns db table)))
    with [EvQuery ("DESCRIBE " ++ table)].
  rewrite !bind_fst, !bind_snd, !statements_app, logIf_statements.
  destruct columns as [|c cols]; [now elim N|]. cbn [List.length Nat.eqb].
  rewrite !bind_fst, !bind_snd, !statements_app. cbn [fst snd].
  destruct Q as [-> | (rows & -> & ->)]; now split.
Qed.

Lemma X16_witness :
  fst (Engine.getTextColumns deniedDb "t") = Ok ["c"]
  /\ fst (Engine.processTable MainGo.render false deniedDb "t" "foo" "bar")
     = (0%Z, Some "Error 1142: SELECT command denied").
Proof.
  split; [reflexivity|].
  refine (proj1 (X16_scan_query_failure MainGo.render false deniedDb "t" "foo" "bar"
                   ["c"] "Error 1142: SELECT command denied" eq_refl _
                   (or_introl eq_refl))).
  discriminate.
Defined.

(** X17: an UPDATE that fails stops the scan of the table at its row: the
    result is that error with a count of zero, the failing UPDATE is the
    last statement sent, and the rows after it are not looked at. *)
Theorem X17_failed_update_stops_scan
    (render : value -> string) (verbose : bool) (db : DB)
    (table search replace : string) (columns columnsList : list string)
    (values : list value) (rest rest' : list (result (list value)))
    (total rowCount : Z) (e : error) :
  List.length values = List.length columnsList ->
  snd (fst (Engine.processRow render verbose db table search replace columns
              columnsList values total rowCount)) = Some e ->
  let scan := Engine.scanRows render verbose db table search replace columns
                columnsList in
  fst (scan (Ok values :: rest) total rowCount) = (0%Z, Some e)
  /\ scan (Ok values :: rest) total rowCount = scan (Ok values :: rest') total rowCount
  /\ exists query allArgs,
       statements (snd (scan (Ok values :: rest) total rowCount))
       = [EvExec query allArgs]
       /\ Exec db query allArgs = Some e.
Proof.
  intros L E scan.
  assert (S : Scan (List.length columnsList) (Ok values) = Ok values).
  { unfold Scan. now rewrite L, Nat.eqb_refl. }
  assert (U : forall more,
             scan (Ok values :: more) total rowCount
             = ((0%Z, Some e),
                snd (Engine.processRow render verbose db table search replace columns
                       columnsList values total rowCount))).
  { intros more. unfold scan. rewrite scanRows_cons, S.
    destruct (Engine.processRow render verbose db table search replace columns
                columnsList values total rowCount) as [[n err] t] eqn:R.
    cbn [fst snd] in E. subst err. cbn [bind snd fst ret]. now rewrite app_nil_r. }
  split; [now rewrite U|]. split; [now rewrite !U|].
  rewrite U. cbn [snd]. rewrite processRow_statements.
  pose proof (processRow_error render verbose db table search replace columns
                columnsList values total rowCount) as PE.
  rewrite E, processRow_updates in PE. rewrite processRow_updates.
  destruct (existsb _ columns); [|discriminate].
  unfold updateOf in *. eexists _, _. split; [reflexivity | now symmetry].
Qed.

Lemma X17_witness :
  List.length [VBytes "old c"] = List.length ["c"]
  /\ fst (Engine.scanRows Part000.convertToString false refusingDb "t1" "old" "new"
            ["c"] ["c"] [Ok [VBytes "old c"]; Ok [VBytes "old d"]] 0 0)
     = (0%Z, Some "Error 1205: Lock wait timeout exceeded").
Proof.
  split; [reflexivity|].
  exact (proj1 (X17_failed_update_stops_scan Part000.convertToString false refusingDb
                  "t1" "old" "new" ["c"] ["c"] [VBytes "old c"] [Ok [VBytes "old d"]] []
                  0 0 "Error 1205: Lock wait timeout exceeded" eq_refl eq_refl)).
Defined.

(* ------------------------------------------------------------------ *)
(** * The replacement counter, from the column to the run *)

(** C3, as the code has it: for every row and every classified text column
    whose rendered value changes under the replacement, the table's counter
    goes up by exactly one for that column, however many occurrences of the
    search literal the value holds, and over a row by the number of changed
    text columns.  The count [processTable] returns for a table scanned to
    its end without error is the number of changed text columns over its
    rows; [main] adds it to the run total, which after the loop is the sum
    of the counts of the tables processed without error, and logs that
    total.  A table whose processing ends on an error is returned with a
    count of zero and adds nothing. *)
Theorem C3_one_count_per_changed_column
    (render : value -> string) (verbose : bool) (db : DB) (search replace : string) :
  (forall rowCount col columnsList values st,
      changed render search replace columnsList values col = true ->
      (0 <= Engine.totalReplacements st < maxInt)%Z ->
      Engine.totalReplacements
        (fst (Engine.findColumn render verbose search replace rowCount col
                columnsList values st))
      = (Engine.totalReplacements st + 1)%Z)
  /\ (forall table columns columnsList values total rowCount,
        (0 <= total)%Z -> (total + Z.of_nat (List.length columns) <= maxInt)%Z ->
        fst (fst (Engine.processRow render verbose db table search replace columns
                    columnsList values total rowCount))
        = (total + Z.of_nat (List.length
                               (filter (changed render search replace columnsList
                                          values) columns)))%Z)
  /\ (forall table columns columnsList rows,
        fst (Engine.getTextColumns db table) = Ok columns ->
        columns <> [] ->
        QuerySelect db ("SELECT * FROM " ++ table) = Ok rows ->
        Columns rows = Ok columnsList ->
        (Z.of_nat (changedCells render search replace columns columnsList
                     (Delivered rows)) <= maxInt)%Z ->
        snd (fst (Engine.processTable render verbose db table search replace)) = None ->
        fst (fst (Engine.processTable render verbose db table search replace))
        = Z.of_nat (changedCells render search replace columns columnsList
                      (Delivered rows)))
  /\ (forall table e,
        snd (fst (Engine.processTable render verbose db table search replace)) = Some e ->
        fst (fst (Engine.processTable render verbose db table search replace)) = 0%Z
        /\ forall total,
             fst (Engine.reportTable verbose table
                    (fst (Engine.processTable render verbose db table search replace))
                    total) = total)
  /\ (forall tables total,
        (forall table, In table tables ->
           (0 <= counted (fst (Engine.processTable render verbose db table search
                                 replace)))%Z) ->
        (0 <= total)%Z ->
        (total + tablesTotal render verbose db search replace tables <= maxInt)%Z ->
        fst (Engine.processTables render verbose db tables search replace total)
        = (total + tablesTotal render verbose db search replace tables)%Z)
  /\ (forall open host port user password database tables,
        user <> "" -> database <> "" -> search <> "" ->
        open (dsnOf host port user password database) = Ok db ->
        fst (Engine.getTables db) = Ok tables ->
        exists before,
          snd (Engine.main render verbose open host port user password database
                 search replace)
          = (before
             ++ [EvLog ("Total replacements: "
                        ++ showInt (fst (Engine.processTables render verbose db tables
                                           search replace 0)))])%list).
Proof.
  split; [|split; [|split; [|split; [|split]]]].
  - intros rowCount col columnsList values st C B.
    rewrite findColumn_state, C. cbn [Engine.totalReplacements].
    now apply wrapInt_succ.
  - intros table columns columnsList values total rowCount T0 T1.
    rewrite processRow_total. apply bump_small; [exact T0|].
    pose proof (filter_length_le (changed render search replace columnsList values)
                  columns). lia.
  - intros table columns columnsList rows G N Q C B.
    unfold Engine.processTable. rewrite !bind_fst, G, !bind_fst.
    destruct columns as [|c cols]; [now elim N|]. cbn [List.length Nat.eqb].
    rewrite !bind_fst, Q, C. intros E.
    rewrite scanRows_total by exact E. rewrite bump_small; lia.
  - intros table e E. split.
    + now apply processTable_error_zero with (e := e).
    + intros total.
      destruct (fst (Engine.processTable render verbose db table search replace))
        as [n err]. cbn [snd] in E. subst err. cbn [Engine.reportTable].
      now rewrite bind_fst.
  - intros tables total N T B. now apply processTables_total.
  - intros open host port user password database tables U D S O G.
    rewrite (main_reaches_tables render verbose open db tables) by assumption.
    cbn [snd].
    exists (EvQuery "SHOW TABLES"
            :: snd (logIf verbose ("Found " ++ showNat (List.length tables)
                                   ++ " tables to process"))
            ++ snd (Engine.processTables render verbose db tables search replace 0))%list.
    cbn [app]. now rewrite <- app_assoc.
Qed.

Lemma C3_witness :
  fst (fst (Engine.processTable Part000.convertToString false usersDb "users"
              "old.site.com" "new.site.com")) = 1%Z
  /\ Engine.totalReplacements
       (fst (Engine.findColumn Part000.convertToString false "old" "new" 0 "bio"
               ["id"; "bio"] [VBytes "1"; VBytes "old, old and old"] (freshRow 0)))
     = 1%Z.
Proof.
  destruct (C3_one_count_per_changed_column Part000.convertToString false usersDb
              "old.site.com" "new.site.com") as (_ & _ & T & _).
  destruct (C3_one_count_per_changed_column Part000.convertToString false usersDb
              "old" "new") as (F & _).
  split.
  - refine (T "users" ["bio"] ["id"; "bio"]
              {| Columns := Ok ["id"; "bio"];
                 Delivered := [Ok [VBytes "1"; VBytes "visit old.site.com now"];
                               Ok [VBytes "2"; VNil]] |}
              eq_refl _ eq_refl eq_refl _ eq_refl).
    + discriminate.
    + vm_compute. discriminate.
  - apply (F 0%Z "bio" ["id"; "bio"] [VBytes "1"; VBytes "old, old and old"]
             (freshRow 0)).
    + reflexivity.
    + vm_compute. split; [discriminate | reflexivity].
Defined.

(** C3, as stated, fails for the table and run counter when the table's
    processing ends on an error after the column was changed.  In either
    variant the first row of [t1] has a changed text column and its UPDATE
    is sent and accepted; the UPDATE of the second row is refused; the count
    returned for [t1] is zero and the run total gets nothing for it. *)
Lemma C3_counterexample :
  changed MainGo.render "9" "8" ["c"] [VBytes "a"] "c" = true
  /\ MainGo.processTable digitsDb "t1" "9" "8"
     = ((0%Z, Some "Error 1205: Lock wait timeout exceeded"),
        [EvQuery "DESCRIBE t1"; EvQuery "SELECT * FROM t1";
         EvExec "UPDATE t1 SET c = ? WHERE c = ?" [VString "[87]"; VBytes "a"];
         EvExec "UPDATE t1 SET c = ? WHERE c = ?" [VString "[88]"; VBytes "b"]])
  /\ Exec digitsDb "UPDATE t1 SET c = ? WHERE c = ?" [VString "[87]"; VBytes "a"] = None
  /\ MainGo.main (fun _ => Ok digitsDb) (mainGoConfig "9" "8")
     = (Engine.ExitOK,
        [EvQuery "SHOW TABLES";
         EvQuery "DESCRIBE t1"; EvQuery "SELECT * FROM t1";
         EvExec "UPDATE t1 SET c = ? WHERE c = ?" [VString "[87]"; VBytes "a"];
         EvExec "UPDATE t1 SET c = ? WHERE c = ?" [VString "[88]"; VBytes "b"];
         EvLog "Error processing table t1: Error 1205: Lock wait timeout exceeded";
         EvQuery "DESCRIBE t2"; EvQuery "SELECT * FROM t2";
         EvExec "UPDATE t2 SET c = ? WHERE c = ?" [VString "[87]"; VBytes "a"];
         EvLog "Table t2: 1 replacements";
         EvLog "Total replacements: 1"])
  /\ changed Part000.convertToString "old" "new" ["c"] [VBytes "old a"] "c" = true
  /\ Part000.processTable refusingDb "t1" "old" "new" false
     = ((0%Z, Some "Error 1205: Lock wait timeout exceeded"),
        [EvQuery "DESCRIBE t1"; EvQuery "SELECT * FROM t1";
         EvExec "UPDATE t1 SET c = ? WHERE c = ?" [VString "new a"; VBytes "old a"];
         EvExec "UPDATE t1 SET c = ? WHERE c = ?" [VString "new c"; VBytes "old c"]])
  /\ Exec refusingDb "UPDATE t1 SET c = ? WHERE c = ?" [VString "new a"; VBytes "old a"]
     = None
  /\ fst (Engine.processTables Part000.convertToString false refusingDb ["t1"]
            "old" "new" 0) = 0%Z.
Proof. repeat split. Qed.

(* ------------------------------------------------------------------ *)
(** * The row whose WHERE clause would be empty *)



